(** * ComputerDrawings: the viewport render-scheduling core

    A shallow embedding of the Mandelbrot explorer's two front-ends
    ([mandelbrot_modern_gui.py], the Tk one, and [fractal_explorer.py],
    the Kivy one) and of [deep_zoom_utils.py], with the properties the
    design document states about them.

    Numbers.  Python [int] is [Z].  Python [float] is modelled by the real
    numbers: every arithmetic operation is exact, there is no rounding, no
    infinity and no NaN.  [int(x)] is truncation toward zero, [math.log10]
    is the real logarithm in base ten; a division whose divisor the source
    does not keep away from zero is [py_div], which can fail. *)

From Stdlib Require Import String.
From Stdlib Require Import Reals Zfloor Lra Lia ZArith List Bool.
Import ListNotations.

Local Open Scope R_scope.

(** ** Python numbers *)

Module PyNum.

(** [int(x)] on a float: the integer part, rounded toward zero. *)
Definition py_int (x : R) : Z :=
  if Rle_dec 0 x then Zfloor x else Zceil x.

(** [math.log10(x)].  Python raises [ValueError] when [x <= 0]; the total
    function below is only ever applied to arguments that the caller has
    made positive, and [math_log] is the checked variant. *)
Definition log10 (x : R) : R := ln x / ln 10.

(** [math.log(x, base)], which is [log(x) / log(base)], with the domain
    error made explicit. *)
Definition math_log (x base : R) : option R :=
  if Rlt_dec 0 x then Some (ln x / ln base) else None.

(** Comparisons as booleans, the way the source branches on them. *)
Definition Rleb (x y : R) : bool := if Rle_dec x y then true else false.
Definition Rltb (x y : R) : bool := if Rlt_dec x y then true else false.

(** [x / y] on numbers, which raises [ZeroDivisionError] when [y] is 0. *)
Definition py_div (x y : R) : option R :=
  if Req_dec_T y 0 then None else Some (x / y).

End PyNum.
Import PyNum.

(** ** deep_zoom_utils.py *)

Module DeepZoomUtils.

Definition estimate_required_iterations
  (zoom_level : R) (base_iterations : Z) : Z :=
  if Rleb zoom_level 1 then base_iterations
  else
    let estimated :=
      py_int (IZR base_iterations * log10 (zoom_level + 1)
              + IZR base_iterations) in
    Z.min estimated 50000.

Record color_params := { cp_stripe_s : Z; cp_ncycle : Z }.

Definition adjust_color_parameters (zoom_level : R) : color_params :=
  if Rltb zoom_level 10 then {| cp_stripe_s := 16; cp_ncycle := 32 |}
  else if Rltb zoom_level 100 then {| cp_stripe_s := 20; cp_ncycle := 48 |}
  else if Rltb zoom_level 1000 then {| cp_stripe_s := 24; cp_ncycle := 64 |}
  else {| cp_stripe_s := 32; cp_ncycle := 96 |}.

Record precision_info := {
  decimal_digits_needed : Z;
  precision_warning : bool;
  float64_max_digits : Z;
  precision_percent : R
}.

Definition get_precision_at_zoom (zoom_level : R) : precision_info :=
  let safe_zoom := Rmax zoom_level 1 in
  let digits := Z.max 1 (py_int (log10 safe_zoom) + 2) in
  let max_digits := 15%Z in
  {| decimal_digits_needed := digits;
     precision_warning := Rltb (IZR max_digits * 0.8) (IZR digits);
     float64_max_digits := max_digits;
     precision_percent := Rmin 100 (IZR digits / IZR max_digits * 100) |}.

End DeepZoomUtils.
Import DeepZoomUtils.

(** ** The render engine's parameter object

    [mandelbrot.Mandelbrot] is imported by both front-ends; its source is
    not part of the files modelled here.  Only the attributes the
    front-ends read and write are kept. *)

Module Mandelbrot.

(** [coord]: [(xmin, xmax, ymin, ymax)]. *)
Definition coords : Type := (R * R * R * R)%type.

Record t := {
  xpixels : Z;
  ypixels : Z;
  maxiter : Z;
  coord : coords;
  os : Z
}.

Definition set_coord (c : coords) (m : t) : t :=
  {| xpixels := xpixels m; ypixels := ypixels m; maxiter := maxiter m;
     coord := c; os := os m |}.

Definition set_maxiter (n : Z) (m : t) : t :=
  {| xpixels := xpixels m; ypixels := ypixels m; maxiter := n;
     coord := coord m; os := os m |}.

Definition set_resolution (w h : Z) (m : t) : t :=
  {| xpixels := w; ypixels := h; maxiter := maxiter m;
     coord := coord m; os := os m |}.

Definition set_os (k : Z) (m : t) : t :=
  {| xpixels := xpixels m; ypixels := ypixels m; maxiter := maxiter m;
     coord := coord m; os := k |}.

Definition half_width (c : coords) : R :=
  let '(xmin, xmax, _, _) := c in (xmax - xmin) / 2.


(** Modelled from the spec: [Mandelbrot.zoom_at], a method of the missing
    [mandelbrot] module.  The design document's [zoomAt]: the target point
    becomes the new center, the new half-width is the old half-width times
    [factor], and the new half-height is derived from the new half-width
    through the pixel aspect ratio. *)
Definition zoom_at (m : t) (x y factor : R) : t :=
  let new_half_width := half_width (coord m) * factor in
  let new_half_height :=
    new_half_width * (IZR (ypixels m) / IZR (xpixels m)) in
  set_coord (x - new_half_width, x + new_half_width,
             y - new_half_height, y + new_half_height) m.

(** The constructor call both front-ends make.  [ypixels] and [os] are
    chosen by the missing constructor; [ypixels0] and [os0] stand for its
    choice. *)
Definition home_coords : coords := (-2.6, 1.845, -1.25, 1.25).

Definition initial (ypixels0 os0 : Z) : t :=
  {| xpixels := 800; ypixels := ypixels0; maxiter := 500;
     coord := home_coords; os := os0 |}.

(** The aspect-ratio fit that both [update_mandelbrot] methods inline:
    center and x-range are kept, the y-range becomes
    [x_range * height / width]. *)
Definition fit_aspect (width height : Z) (current_coords : coords) : coords :=
  let '(c0, c1, c2, c3) := current_coords in
  let center_x := (c0 + c1) / 2 in
  let center_y := (c2 + c3) / 2 in
  let x_range := c1 - c0 in
  let aspect_ratio := IZR height / IZR width in
  let new_y_range := x_range * aspect_ratio in
  (center_x - x_range / 2, center_x + x_range / 2,
   center_y - new_y_range / 2, center_y + new_y_range / 2).

End Mandelbrot.

(** A computed picture.  The engine is opaque: a picture is identified by
    its size and by the parameters it was rendered from. *)
Record image := {
  width : Z;
  height : Z;
  rendered_from : Mandelbrot.t
}.

Definition render (m : Mandelbrot.t) : image :=
  {| width := Mandelbrot.xpixels m; height := Mandelbrot.ypixels m;
     rendered_from := m |}.

(** ** The history of views ([save_current_view]) *)

Module History.

Definition max_history : nat := 20.

(** [if len(h) >= max_history: h.pop(0)] then [h.append(c)].  [pop(0)] is
    only reached on a list of at least [max_history] entries. *)
Definition save {A : Type} (capacity : nat) (h : list A) (c : A) : list A :=
  let h := if (capacity <=? length h)%nat then tl h else h in
  h ++ [c].

(** The design document's wording of [push], to compare [save] with:
    append, then drop index 0 when the size exceeds the capacity. *)
Definition push_spec {A : Type} (capacity : nat) (h : list A) (c : A)
  : list A :=
  let h := h ++ [c] in
  if (capacity <? length h)%nat then tl h else h.

Definition pushes {A : Type} (capacity : nat) (h : list A) (cs : list A)
  : list A :=
  fold_left (save capacity) cs h.

End History.

(** ** mandelbrot_modern_gui.py: the Tk front-end

    The widgets, the status texts and the colour settings are left out;
    what is kept is the state the handlers branch on and the Tk runtime
    the scheduler lives in: the [after] jobs of the event loop, the
    worker threads and the clock. *)

Module Tk.

Inductive quality := Low | Normal | High.

(** What [root.after] can be asked to call. *)
Inductive callback := CbUpdate | CbCheck | CbSchedule.

(** An item of [computation_queue]: [('success', image)] or
    [('error', str(e))]. *)
Inductive outcome :=
| Success (img : image)
| Failure (msg : string).

Record gui := {
  mandelbrot : Mandelbrot.t;
  current_image : option image;
  is_computing : bool;
  computation_queue : list outcome;
  update_pending : bool;
  zoom_history : list Mandelbrot.coords;
  zoom_level : R;
  preview_quality : quality;
  dynamic_iterations : bool;
  oversampling : Z;
  base_iterations : Z;
  (* the preview canvas widget: [winfo_width()], [winfo_height()] *)
  winfo_width : Z;
  winfo_height : Z;
  (* the Tk runtime *)
  clock : nat;                          (* milliseconds *)
  after_jobs : list (nat * callback);   (* due time, callback *)
  threads : list Mandelbrot.t;          (* running [compute_mandelbrot] *)
  (* history variable: the parameters of every render started so far *)
  dispatched : list Mandelbrot.t
}.

Definition max_iterations : Z := 50000.

Definition set_mandelbrot (v : Mandelbrot.t) (s : gui) : gui :=
  {| mandelbrot := v; current_image := current_image s;
     is_computing := is_computing s;
     computation_queue := computation_queue s;
     update_pending := update_pending s; zoom_history := zoom_history s;
     zoom_level := zoom_level s; preview_quality := preview_quality s;
     dynamic_iterations := dynamic_iterations s;
     oversampling := oversampling s; base_iterations := base_iterations s;
     winfo_width := winfo_width s; winfo_height := winfo_height s;
     clock := clock s; after_jobs := after_jobs s; threads := threads s;
     dispatched := dispatched s |}.

Definition set_current_image (v : option image) (s : gui) : gui :=
  {| mandelbrot := mandelbrot s; current_image := v;
     is_computing := is_computing s;
     computation_queue := computation_queue s;
     update_pending := update_pending s; zoom_history := zoom_history s;
     zoom_level := zoom_level s; preview_quality := preview_quality s;
     dynamic_iterations := dynamic_iterations s;
     oversampling := oversampling s; base_iterations := base_iterations s;
     winfo_width := winfo_width s; winfo_height := winfo_height s;
     clock := clock s; after_jobs := after_jobs s; threads := threads s;
     dispatched := dispatched s |}.

Definition set_is_computing (v : bool) (s : gui) : gui :=
  {| mandelbrot := mandelbrot s; current_image := current_image s;
     is_computing := v;
     computation_queue := computation_queue s;
     update_pending := update_pending s; zoom_history := zoom_history s;
     zoom_level := zoom_level s; preview_quality := preview_quality s;
     dynamic_iterations := dynamic_iterations s;
     oversampling := oversampling s; base_iterations := base_iterations s;
     winfo_width := winfo_width s; winfo_height := winfo_height s;
     clock := clock s; after_jobs := after_jobs s; threads := threads s;
     dispatched := dispatched s |}.

Definition set_computation_queue (v : list outcome) (s : gui) : gui :=
  {| mandelbrot := mandelbrot s; current_image := current_image s;
     is_computing := is_computing s;
     computation_queue := v;
     update_pending := update_pending s; zoom_history := zoom_history s;
     zoom_level := zoom_level s; preview_quality := preview_quality s;
     dynamic_iterations := dynamic_iterations s;
     oversampling := oversampling s; base_iterations := base_iterations s;
     winfo_width := winfo_width s; winfo_height := winfo_height s;
     clock := clock s; after_jobs := after_jobs s; threads := threads s;
     dispatched := dispatched s |}.

Definition set_update_pending (v : bool) (s : gui) : gui :=
  {| mandelbrot := mandelbrot s; current_image := current_image s;
     is_computing := is_computing s;
     computation_queue := computation_queue s;
     update_pending := v; zoom_history := zoom_history s;
     zoom_level := zoom_level s; preview_quality := preview_quality s;
     dynamic_iterations := dynamic_iterations s;
     oversampling := oversampling s; base_iterations := base_iterations s;
     winfo_width := winfo_width s; winfo_height := winfo_height s;
     clock := clock s; after_jobs := after_jobs s; threads := threads s;
     dispatched := dispatched s |}.

Definition set_zoom_history (v : list Mandelbrot.coords) (s : gui) : gui :=
  {| mandelbrot := mandelbrot s; current_image := current_image s;
     is_computing := is_computing s;
     computation_queue := computation_queue s;
     update_pending := update_pending s; zoom_history := v;
     zoom_level := zoom_level s; preview_quality := preview_quality s;
     dynamic_iterations := dynamic_iterations s;
     oversampling := oversampling s; base_iterations := base_iterations s;
     winfo_width := winfo_width s; winfo_height := winfo_height s;
     clock := clock s; after_jobs := after_jobs s; threads := threads s;
     dispatched := dispatched s |}.

Definition set_zoom_level (v : R) (s : gui) : gui :=
  {| mandelbrot := mandelbrot s; current_image := current_image s;
     is_computing := is_computing s;
     computation_queue := computation_queue s;
     update_pending := update_pending s; zoom_history := zoom_history s;
     zoom_level := v; preview_quality := preview_quality s;
     dynamic_iterations := dynamic_iterations s;
     oversampling := oversampling s; base_iterations := base_iterations s;
     winfo_width := winfo_width s; winfo_height := winfo_height s;
     clock := clock s; after_jobs := after_jobs s; threads := threads s;
     dispatched := dispatched s |}.

Definition set_winfo (w h : Z) (s : gui) : gui :=
  {| mandelbrot := mandelbrot s; current_image := current_image s;
     is_computing := is_computing s;
     computation_queue := computation_queue s;
     update_pending := update_pending s; zoom_history := zoom_history s;
     zoom_level := zoom_level s; preview_quality := preview_quality s;
     dynamic_iterations := dynamic_iterations s;
     oversampling := oversampling s; base_iterations := base_iterations s;
     winfo_width := w; winfo_height := h;
     clock := clock s; after_jobs := after_jobs s; threads := threads s;
     dispatched := dispatched s |}.

Definition set_clock (v : nat) (s : gui) : gui :=
  {| mandelbrot := mandelbrot s; current_image := current_image s;
     is_computing := is_computing s;
     computation_queue := computation_queue s;
     update_pending := update_pending s; zoom_history := zoom_history s;
     zoom_level := zoom_level s; preview_quality := preview_quality s;
     dynamic_iterations := dynamic_iterations s;
     oversampling := oversampling s; base_iterations := base_iterations s;
     winfo_width := winfo_width s; winfo_height := winfo_height s;
     clock := v; after_jobs := after_jobs s; threads := threads s;
     dispatched := dispatched s |}.

Definition set_after_jobs (v : list (nat * callback)) (s : gui) : gui :=
  {| mandelbrot := mandelbrot s; current_image := current_image s;
     is_computing := is_computing s;
     computation_queue := computation_queue s;
     update_pending := update_pending s; zoom_history := zoom_history s;
     zoom_level := zoom_level s; preview_quality := preview_quality s;
     dynamic_iterations := dynamic_iterations s;
     oversampling := oversampling s; base_iterations := base_iterations s;
     winfo_width := winfo_width s; winfo_height := winfo_height s;
     clock := clock s; after_jobs := v; threads := threads s;
     dispatched := dispatched s |}.

Definition set_threads (v : list Mandelbrot.t) (s : gui) : gui :=
  {| mandelbrot := mandelbrot s; current_image := current_image s;
     is_computing := is_computing s;
     computation_queue := computation_queue s;
     update_pending := update_pending s; zoom_history := zoom_history s;
     zoom_level := zoom_level s; preview_quality := preview_quality s;
     dynamic_iterations := dynamic_iterations s;
     oversampling := oversampling s; base_iterations := base_iterations s;
     winfo_width := winfo_width s; winfo_height := winfo_height s;
     clock := clock s; after_jobs := after_jobs s; threads := v;
     dispatched := dispatched s |}.

Definition set_dispatched (v : list Mandelbrot.t) (s : gui) : gui :=
  {| mandelbrot := mandelbrot s; current_image := current_image s;
     is_computing := is_computing s;
     computation_queue := computation_queue s;
     update_pending := update_pending s; zoom_history := zoom_history s;
     zoom_level := zoom_level s; preview_quality := preview_quality s;
     dynamic_iterations := dynamic_iterations s;
     oversampling := oversampling s; base_iterations := base_iterations s;
     winfo_width := winfo_width s; winfo_height := winfo_height s;
     clock := clock s; after_jobs := after_jobs s; threads := threads s;
     dispatched := v |}.

(** [__init__], up to the first [schedule_update]: the state built around
    a fresh engine object, with a canvas of [w] by [h] pixels. *)
Definition init (m : Mandelbrot.t) (w h : Z) : gui :=
  {| mandelbrot := m; current_image := None; is_computing := false;
     computation_queue := []; update_pending := false; zoom_history := [];
     zoom_level := 1; preview_quality := Normal;
     dynamic_iterations := true; oversampling := 1;
     base_iterations := 500; winfo_width := w; winfo_height := h;
     clock := 0; after_jobs := []; threads := []; dispatched := [] |}.

(** [root.after(ms, cb)]. *)
Definition after (ms : nat) (cb : callback) (s : gui) : gui :=
  set_after_jobs (after_jobs s ++ [((clock s + ms)%nat, cb)]) s.

(** [schedule_update]. *)
Definition schedule_update (s : gui) : gui :=
  if negb (update_pending s) then
    after 100 CbUpdate (set_update_pending true s)
  else s.

(** The resolution and the bounds [update_mandelbrot] gives the engine
    for a canvas of [canvas_width] by [canvas_height] pixels. *)
Definition prepare (q : quality) (oversampling : Z)
  (canvas_width canvas_height : Z) (m : Mandelbrot.t) : Mandelbrot.t :=
  let '(render_width, render_height) :=
    match q with
    | Low => (py_int (IZR canvas_width * 0.5),
              py_int (IZR canvas_height * 0.5))
    | High => (py_int (IZR canvas_width * 1.5),
               py_int (IZR canvas_height * 1.5))
    | Normal => (canvas_width, canvas_height)
    end in
  if ((50 <? canvas_width) && (50 <? canvas_height))%Z then
    let m := Mandelbrot.set_resolution render_width render_height m in
    let m := Mandelbrot.set_os oversampling m in
    Mandelbrot.set_coord
      (Mandelbrot.fit_aspect canvas_width canvas_height (Mandelbrot.coord m))
      m
  else m.

(** [threading.Thread(target=self.compute_mandelbrot).start()]: the worker
    reads the engine object when it starts; the parameters it reads are
    logged in [dispatched]. *)
Definition start_thread (s : gui) : gui :=
  set_dispatched (dispatched s ++ [mandelbrot s])
    (set_threads (threads s ++ [mandelbrot s]) s).

(** [update_mandelbrot]. *)
Definition update_mandelbrot (s : gui) : gui :=
  let s := set_update_pending false s in
  if is_computing s then s
  else
    let s :=
      set_mandelbrot
        (prepare (preview_quality s) (oversampling s)
           (winfo_width s) (winfo_height s) (mandelbrot s)) s in
    let s := set_is_computing true s in
    let s := start_thread s in
    after 100 CbCheck s.

(** [compute_mandelbrot], the body of the worker thread: what it puts in
    the queue.  [raised] is the exception the engine raised, if any. *)
Definition compute_mandelbrot (m : Mandelbrot.t) (raised : option string)
  : outcome :=
  match raised with
  | None => Success (render m)
  | Some e => Failure e
  end.

(** [check_computation]. *)
Definition check_computation (s : gui) : gui :=
  match computation_queue s with
  | [] => after 100 CbCheck s                      (* queue.Empty *)
  | item :: rest =>
      let s := set_computation_queue rest s in
      let s := set_is_computing false s in
      match item with
      | Success result => set_current_image (Some result) s
      | Failure _ => s
      end
  end.

(** [canvas_to_complex]: [None] stands for [(None, None)]. *)
Definition canvas_to_complex (s : gui) (canvas_x canvas_y : Z)
  : option (R * R) :=
  match current_image s with
  | None => None
  | Some img =>
      let image_x := canvas_x in
      let image_y := canvas_y in
      if ((image_x <? 0) || (width img <=? image_x)
          || (image_y <? 0) || (height img <=? image_y))%Z
      then None
      else
        let '(c0, c1, c2, c3) := Mandelbrot.coord (mandelbrot s) in
        let x_ratio := IZR image_x / IZR (width img) in
        let y_ratio := IZR image_y / IZR (height img) in
        Some (c0 + x_ratio * (c1 - c0), c2 + (1 - y_ratio) * (c3 - c2))
  end.

(** [on_canvas_resize], for an event of the canvas itself.  The job
    [_resize_job] names is the one [CbSchedule] job there can be. *)
Definition on_canvas_resize (event_width event_height : Z) (s : gui) : gui :=
  let not_resize j :=
    match snd j with CbSchedule => false | _ => true end in
  let s := set_after_jobs (filter not_resize (after_jobs s)) s in
  let s := set_winfo event_width event_height s in
  if negb (is_computing s) then after 200 CbSchedule s else s.

(** [save_current_view]. *)
Definition save_current_view (s : gui) : gui :=
  set_zoom_history
    (History.save History.max_history (zoom_history s)
       (Mandelbrot.coord (mandelbrot s))) s.

(** The estimate [update_dynamic_iterations] computes inline;
    [math.log] raises when [zoom_level + 1 <= 0]. *)
Definition inline_estimate (zoom_level : R) (base_iterations : Z)
  : option Z :=
  match math_log (zoom_level + 1) 10 with
  | None => None
  | Some l =>
      let new_iterations :=
        py_int (IZR base_iterations * l + IZR base_iterations) in
      Some (Z.min new_iterations max_iterations)
  end.

(** [abs(new - current) > 0.1 * current]. *)
Definition significantly_different (new_iterations current_iterations : Z)
  : bool :=
  Rltb (0.1 * IZR current_iterations)
       (IZR (Z.abs (new_iterations - current_iterations))).

(** [update_dynamic_iterations]; [None] when [math.log] raises. *)
Definition update_dynamic_iterations (s : gui) : option gui :=
  if dynamic_iterations s then
    match inline_estimate (zoom_level s) (base_iterations s) with
    | None => None
    | Some new_iterations =>
        let current_iterations := Mandelbrot.maxiter (mandelbrot s) in
        if significantly_different new_iterations current_iterations then
          Some (set_mandelbrot
                  (Mandelbrot.set_maxiter new_iterations (mandelbrot s)) s)
        else Some s
    end
  else Some s.

(** What the three zoom handlers do once the click has been converted:
    [save_current_view(); mandelbrot.zoom_at(x, y, factor);
     zoom_level = scale(zoom_level); update_dynamic_iterations();
     schedule_update()]. *)
Definition zoom_to (factor : R) (scale : R -> R) (x y : R) (s : gui)
  : option gui :=
  let s := save_current_view s in
  let s := set_mandelbrot (Mandelbrot.zoom_at (mandelbrot s) x y factor) s in
  let s := set_zoom_level (scale (zoom_level s)) s in
  match update_dynamic_iterations s with
  | None => None
  | Some s => Some (schedule_update s)
  end.

Definition has_image (s : gui) : bool :=
  match current_image s with Some _ => true | None => false end.

(** A zoom handler: the guard, the conversion of the click, the zoom. *)
Definition zoom_handler (factor : R) (scale : R -> R)
  (event_x event_y : Z) (s : gui) : option gui :=
  if has_image s && negb (is_computing s) then
    match canvas_to_complex s event_x event_y with
    | Some (x, y) => zoom_to factor scale x y s
    | None => Some s
    end
  else Some s.

(** [on_canvas_click]: [zoom_at(x, y, 0.25)], [zoom_level *= 4]. *)
Definition on_canvas_click := zoom_handler 0.25 (fun z => z * 4).

(** [on_canvas_right_click]: [zoom_at(x, y, 4.0)], [zoom_level /= 4]. *)
Definition on_canvas_right_click := zoom_handler 4.0 (fun z => z / 4).

(** [on_canvas_scroll]: [zoom_at(x, y, 0.5)], [zoom_level *= 2] when
    [event.delta > 0], else [zoom_at(x, y, 2.0)], [zoom_level /= 2]. *)
Definition on_canvas_scroll (event_delta : Z) :=
  if (0 <? event_delta)%Z then zoom_handler 0.5 (fun z => z * 2)
  else zoom_handler 2.0 (fun z => z / 2).

(** *** The event loop *)

Definition run_callback (cb : callback) (s : gui) : gui :=
  match cb with
  | CbUpdate => update_mandelbrot s
  | CbCheck => check_computation s
  | CbSchedule => schedule_update s
  end.

(** The list without its [i]-th entry. *)
Definition remove_nth {A : Type} (i : nat) (l : list A) : list A :=
  firstn i l ++ skipn (S i) l.

Inductive event :=
| Request (m : Mandelbrot.t)     (* a handler leaves the engine parameters
                                    at [m] and calls [schedule_update] *)
| Click (x y : Z)
| RightClick (x y : Z)
| Scroll (delta x y : Z)
| Resize (w h : Z)
| Tick (ms : nat)                (* time passes *)
| Timer (i : nat)                (* the [i]-th [after] job, due, is run *)
| ThreadDone (i : nat) (raised : option string).
                                 (* the [i]-th worker puts its result *)

(** One step of the application; [None] when the event cannot happen in
    [s] (a job that is not due, a thread that does not exist) or when the
    handler raises. *)
Definition exec (e : event) (s : gui) : option gui :=
  match e with
  | Request m => Some (schedule_update (set_mandelbrot m s))
  | Click x y => on_canvas_click x y s
  | RightClick x y => on_canvas_right_click x y s
  | Scroll d x y => on_canvas_scroll d x y s
  | Resize w h => Some (on_canvas_resize w h s)
  | Tick ms => Some (set_clock (clock s + ms)%nat s)
  | Timer i =>
      match nth_error (after_jobs s) i with
      | Some (due, cb) =>
          if (due <=? clock s)%nat then
            Some (run_callback cb
                    (set_after_jobs (remove_nth i (after_jobs s)) s))
          else None
      | None => None
      end
  | ThreadDone i raised =>
      match nth_error (threads s) i with
      | Some m =>
          let s := set_threads (remove_nth i (threads s)) s in
          Some (set_computation_queue
                  (computation_queue s ++ [compute_mandelbrot m raised]) s)
      | None => None
      end
  end.

Fixpoint run (es : list event) (s : gui) : option gui :=
  match es with
  | [] => Some s
  | e :: es =>
      match exec e s with
      | Some s' => run es s'
      | None => None
      end
  end.

Definition step (s s' : gui) : Prop := exists e, exec e s = Some s'.

Inductive reachable (s0 : gui) : gui -> Prop :=
| reach_refl : reachable s0 s0
| reach_step s s' : reachable s0 s -> step s s' -> reachable s0 s'.

(** A step that starts a render. *)
Definition dispatches (s s' : gui) : Prop :=
  (length (dispatched s) < length (dispatched s'))%nat.

End Tk.

(** ** fractal_explorer.py: the Kivy front-end

    The class defines [compute_mandelbrot], [display_result],
    [on_touch_down] and [go_back_to_menu] twice; the later definition is
    the one the class keeps, and the one modelled. *)

Module Kivy.

(** The image widget, [self.fractal_image] (and [self.ids.fractal_image]):
    its position, its size and its texture. *)
Record widget := {
  wx : R;
  wy : R;
  wwidth : R;
  wheight : R;
  texture : option image
}.

Definition set_texture (t : option image) (w : widget) : widget :=
  {| wx := wx w; wy := wy w; wwidth := wwidth w; wheight := wheight w;
     texture := t |}.

(** What the worker hands to [Clock.schedule_once]. *)
Inductive clock_event :=
| DisplayResult (image_array : image)
| ComputationError (error_msg : string).

Record screen := {
  mandelbrot : Mandelbrot.t;
  zoom_level : R;
  base_iterations : Z;
  is_computing : bool;
  dynamic_iterations : bool;
  fractal_image : option widget;
  threads : list Mandelbrot.t;
  scheduled : list clock_event;
  dispatched : list Mandelbrot.t
}.

Definition set_mandelbrot (v : Mandelbrot.t) (s : screen) : screen :=
  {| mandelbrot := v; zoom_level := zoom_level s;
     base_iterations := base_iterations s; is_computing := is_computing s;
     dynamic_iterations := dynamic_iterations s;
     fractal_image := fractal_image s; threads := threads s;
     scheduled := scheduled s; dispatched := dispatched s |}.

Definition set_zoom_level (v : R) (s : screen) : screen :=
  {| mandelbrot := mandelbrot s; zoom_level := v;
     base_iterations := base_iterations s; is_computing := is_computing s;
     dynamic_iterations := dynamic_iterations s;
     fractal_image := fractal_image s; threads := threads s;
     scheduled := scheduled s; dispatched := dispatched s |}.

Definition set_is_computing (v : bool) (s : screen) : screen :=
  {| mandelbrot := mandelbrot s; zoom_level := zoom_level s;
     base_iterations := base_iterations s; is_computing := v;
     dynamic_iterations := dynamic_iterations s;
     fractal_image := fractal_image s; threads := threads s;
     scheduled := scheduled s; dispatched := dispatched s |}.

Definition set_fractal_image (v : option widget) (s : screen) : screen :=
  {| mandelbrot := mandelbrot s; zoom_level := zoom_level s;
     base_iterations := base_iterations s; is_computing := is_computing s;
     dynamic_iterations := dynamic_iterations s;
     fractal_image := v; threads := threads s;
     scheduled := scheduled s; dispatched := dispatched s |}.

Definition set_threads (v : list Mandelbrot.t) (s : screen) : screen :=
  {| mandelbrot := mandelbrot s; zoom_level := zoom_level s;
     base_iterations := base_iterations s; is_computing := is_computing s;
     dynamic_iterations := dynamic_iterations s;
     fractal_image := fractal_image s; threads := v;
     scheduled := scheduled s; dispatched := dispatched s |}.

Definition set_scheduled (v : list clock_event) (s : screen) : screen :=
  {| mandelbrot := mandelbrot s; zoom_level := zoom_level s;
     base_iterations := base_iterations s; is_computing := is_computing s;
     dynamic_iterations := dynamic_iterations s;
     fractal_image := fractal_image s; threads := threads s;
     scheduled := v; dispatched := dispatched s |}.

Definition set_dispatched (v : list Mandelbrot.t) (s : screen) : screen :=
  {| mandelbrot := mandelbrot s; zoom_level := zoom_level s;
     base_iterations := base_iterations s; is_computing := is_computing s;
     dynamic_iterations := dynamic_iterations s;
     fractal_image := fractal_image s; threads := threads s;
     scheduled := scheduled s; dispatched := v |}.

(** The resolution and bounds [update_mandelbrot] sets when the image
    widget exists and is larger than 50 by 50. *)
Definition prepare (w : option widget) (m : Mandelbrot.t) : Mandelbrot.t :=
  match w with
  | None => m
  | Some w =>
      let width := py_int (wwidth w) in
      let height := py_int (wheight w) in
      if ((50 <? width) && (50 <? height))%Z then
        let m := Mandelbrot.set_resolution width height m in
        Mandelbrot.set_coord
          (Mandelbrot.fit_aspect width height (Mandelbrot.coord m)) m
      else m
  end.

(** [update_mandelbrot]. *)
Definition update_mandelbrot (s : screen) : screen :=
  if is_computing s then s
  else
    let s := set_mandelbrot (prepare (fractal_image s) (mandelbrot s)) s in
    let s := set_is_computing true s in
    set_dispatched (dispatched s ++ [mandelbrot s])
      (set_threads (threads s ++ [mandelbrot s]) s).

(** [compute_mandelbrot], the body of the worker thread: what it hands to
    the clock. *)
Definition compute_mandelbrot (m : Mandelbrot.t) (raised : option string)
  : clock_event :=
  match raised with
  | None => DisplayResult (render m)
  | Some e => ComputationError e
  end.

(** [display_result]. *)
Definition display_result (image_array : image) (s : screen) : screen :=
  match fractal_image s with
  | None => s
  | Some w =>
      let s := set_fractal_image (Some (set_texture (Some image_array) w)) s in
      set_is_computing false s
  end.

(** [on_computation_error]. *)
Definition on_computation_error (error_msg : string) (s : screen) : screen :=
  set_is_computing false s.

(** [update_dynamic_iterations]. *)
Definition update_dynamic_iterations (s : screen) : screen :=
  if negb (dynamic_iterations s) then s
  else
    let new_iterations :=
      estimate_required_iterations (zoom_level s) (base_iterations s) in
    let current_iterations := Mandelbrot.maxiter (mandelbrot s) in
    if Tk.significantly_different new_iterations current_iterations then
      set_mandelbrot (Mandelbrot.set_maxiter new_iterations (mandelbrot s)) s
    else s.

(** [screen_to_fractal_coords].  The result is [None] when a division
    raises [ZeroDivisionError] (a widget of width or height 0); [Some None]
    stands for the pair [(None, None)]. *)
Definition screen_to_fractal_coords (s : screen) (pos : R * R)
  : option (option (R * R)) :=
  match fractal_image s with
  | None => Some None
  | Some w =>
      match texture w with
      | None => Some None
      | Some _ =>
          let local_x := fst pos - wx w in
          let local_y := snd pos - wy w in
          match py_div local_x (wwidth w) with
          | None => None
          | Some norm_x =>
              match py_div local_y (wheight w) with
              | None => None
              | Some q =>
                  let norm_y := 1 - q in
                  let '(c0, c1, c2, c3) := Mandelbrot.coord (mandelbrot s) in
                  Some (Some (c0 + norm_x * (c1 - c0),
                              c2 + norm_y * (c3 - c2)))
              end
          end
      end
  end.

(** [zoom_at_point] (the colour parameters it also sets are left out);
    [None] when the conversion of the position raises, which happens
    before anything is changed. *)
Definition zoom_at_point (pos : R * R) (zoom_out : bool) (s : screen)
  : option screen :=
  if is_computing s
     || match fractal_image s with None => true | Some _ => false end
  then Some s
  else
    match screen_to_fractal_coords s pos with
    | None => None
    | Some None => Some s
    | Some (Some (fx, fy)) =>
        let zoom_factor := if zoom_out then 4.0 else 0.25 in
        let s :=
          set_mandelbrot
            (Mandelbrot.zoom_at (mandelbrot s) fx fy zoom_factor) s in
        let s :=
          set_zoom_level
            (if zoom_out then zoom_level s / 4.0 else zoom_level s * 4.0) s in
        let s := update_dynamic_iterations s in
        Some (update_mandelbrot s)
    end.

(** [reset_to_home]. *)
Definition reset_to_home (s : screen) : screen :=
  if is_computing s then s
  else
    let s :=
      set_mandelbrot
        (Mandelbrot.set_coord Mandelbrot.home_coords (mandelbrot s)) s in
    let s := set_zoom_level 1.0 s in
    update_mandelbrot s.

Inductive event :=
| PreEnter                           (* [on_pre_enter]'s scheduled update *)
| ZoomAtPoint (pos : R * R) (zoom_out : bool)
| ResetToHome
| Layout (w : option widget)         (* the image widget is laid out *)
| ThreadDone (i : nat) (raised : option string)
| ClockFires (i : nat).              (* a scheduled callback is run *)

(** One step of the screen; [None] when the event cannot happen in [s] (a
    thread or a callback that does not exist) or when the handler
    raises. *)
Definition exec (e : event) (s : screen) : option screen :=
  match e with
  | PreEnter => Some (update_mandelbrot s)
  | ZoomAtPoint pos zoom_out => zoom_at_point pos zoom_out s
  | ResetToHome => Some (reset_to_home s)
  | Layout w => Some (set_fractal_image w s)
  | ThreadDone i raised =>
      match nth_error (threads s) i with
      | Some m =>
          let s := set_threads (Tk.remove_nth i (threads s)) s in
          Some (set_scheduled
                  (scheduled s ++ [compute_mandelbrot m raised]) s)
      | None => None
      end
  | ClockFires i =>
      match nth_error (scheduled s) i with
      | Some ev =>
          let s := set_scheduled (Tk.remove_nth i (scheduled s)) s in
          Some match ev with
               | DisplayResult image_array => display_result image_array s
               | ComputationError msg => on_computation_error msg s
               end
      | None => None
      end
  end.

Definition step (s s' : screen) : Prop := exists e, exec e s = Some s'.

Inductive reachable (s0 : screen) : screen -> Prop :=
| reach_refl : reachable s0 s0
| reach_step s s' : reachable s0 s -> step s s' -> reachable s0 s'.

(** [__init__]. *)
Definition init (m : Mandelbrot.t) : screen :=
  {| mandelbrot := m; zoom_level := 1.0; base_iterations := 500;
     is_computing := false; dynamic_iterations := true;
     fractal_image := None; threads := []; scheduled := [];
     dispatched := [] |}.

End Kivy.

(** ** mandelbrot_modern_gui.py: the remaining handlers

    The handlers of the controls beside the canvas: the reset button, the
    iteration slider, the dynamic-iterations check box and the quality and
    oversampling selectors.  [on_preset_change] only touches the colour
    settings, which are not modelled. *)

Module TkMore.

Import Tk.

Definition set_preview_quality (v : quality) (s : gui) : gui :=
  {| mandelbrot := mandelbrot s; current_image := current_image s;
     is_computing := is_computing s;
     computation_queue := computation_queue s;
     update_pending := update_pending s; zoom_history := zoom_history s;
     zoom_level := zoom_level s; preview_quality := v;
     dynamic_iterations := dynamic_iterations s;
     oversampling := oversampling s; base_iterations := base_iterations s;
     winfo_width := winfo_width s; winfo_height := winfo_height s;
     clock := clock s; after_jobs := after_jobs s; threads := threads s;
     dispatched := dispatched s |}.

Definition set_dynamic_iterations (v : bool) (s : gui) : gui :=
  {| mandelbrot := mandelbrot s; current_image := current_image s;
     is_computing := is_computing s;
     computation_queue := computation_queue s;
     update_pending := update_pending s; zoom_history := zoom_history s;
     zoom_level := zoom_level s; preview_quality := preview_quality s;
     dynamic_iterations := v;
     oversampling := oversampling s; base_iterations := base_iterations s;
     winfo_width := winfo_width s; winfo_height := winfo_height s;
     clock := clock s; after_jobs := after_jobs s; threads := threads s;
     dispatched := dispatched s |}.

Definition set_oversampling (v : Z) (s : gui) : gui :=
  {| mandelbrot := mandelbrot s; current_image := current_image s;
     is_computing := is_computing s;
     computation_queue := computation_queue s;
     update_pending := update_pending s; zoom_history := zoom_history s;
     zoom_level := zoom_level s; preview_quality := preview_quality s;
     dynamic_iterations := dynamic_iterations s;
     oversampling := v; base_iterations := base_iterations s;
     winfo_width := winfo_width s; winfo_height := winfo_height s;
     clock := clock s; after_jobs := after_jobs s; threads := threads s;
     dispatched := dispatched s |}.

Definition set_base_iterations (v : Z) (s : gui) : gui :=
  {| mandelbrot := mandelbrot s; current_image := current_image s;
     is_computing := is_computing s;
     computation_queue := computation_queue s;
     update_pending := update_pending s; zoom_history := zoom_history s;
     zoom_level := zoom_level s; preview_quality := preview_quality s;
     dynamic_iterations := dynamic_iterations s;
     oversampling := oversampling s; base_iterations := v;
     winfo_width := winfo_width s; winfo_height := winfo_height s;
     clock := clock s; after_jobs := after_jobs s; threads := threads s;
     dispatched := dispatched s |}.

(** [on_dynamic_iterations_change]; [checked] is what
    [self.dyn_iter_var.get()] returns. *)
Definition on_dynamic_iterations_change (checked : bool) (s : gui)
  : option gui :=
  let s := set_dynamic_iterations checked s in
  if dynamic_iterations s then
    match update_dynamic_iterations s with
    | None => None
    | Some s => Some (schedule_update s)
    end
  else Some s.

(** [on_quality_change]; [selected] is what [self.quality_var.get()]
    returns, one of the three values of the selector. *)
Definition on_quality_change (selected : quality) (s : gui) : gui :=
  schedule_update (set_preview_quality selected s).

(** [on_oversampling_change]; [selected] is [int(self.os_var.get())]. *)
Definition on_oversampling_change (selected : Z) (s : gui) : gui :=
  let s := set_oversampling selected s in
  let s :=
    set_mandelbrot (Mandelbrot.set_os (oversampling s) (mandelbrot s)) s in
  schedule_update s.

(** [on_iterations_change]. *)
Definition on_iterations_change (value : R) (s : gui) : option gui :=
  let s := set_base_iterations (py_int value) s in
  let r :=
    if negb (dynamic_iterations s) then
      Some (set_mandelbrot
              (Mandelbrot.set_maxiter (base_iterations s) (mandelbrot s)) s)
    else update_dynamic_iterations s in
  match r with
  | None => None
  | Some s => Some (schedule_update s)
  end.

(** [reset_to_home].  [home_coords] is [self.home_coords], which
    [__init__] copies from the engine's bounds and nothing changes
    afterwards. *)
Definition reset_to_home (home_coords : Mandelbrot.coords) (s : gui) : gui :=
  if negb (is_computing s) then
    let s := save_current_view s in
    let canvas_width := winfo_width s in
    let canvas_height := winfo_height s in
    let s :=
      if ((50 <? canvas_width) && (50 <? canvas_height))%Z then
        let m :=
          Mandelbrot.set_resolution canvas_width canvas_height
            (mandelbrot s) in
        let aspect_ratio := IZR canvas_height / IZR canvas_width in
        let '(x_min, x_max, y_min, y_max) := home_coords in
        let center_y := (y_min + y_max) / 2 in
        let x_range := x_max - x_min in
        let new_y_range := x_range * aspect_ratio in
        set_mandelbrot
          (Mandelbrot.set_coord
             (x_min, x_max,
              center_y - new_y_range / 2, center_y + new_y_range / 2) m) s
      else
        set_mandelbrot (Mandelbrot.set_coord home_coords (mandelbrot s)) s in
    let s := set_zoom_level 1.0 s in
    let s :=
      set_mandelbrot
        (Mandelbrot.set_maxiter (base_iterations s) (mandelbrot s)) s in
    schedule_update s
  else s.

(** The events of the whole application: the ones of [Tk.event] and the
    controls above. *)
Inductive event :=
| Base (e : Tk.event)
| ResetToHome
| DynamicIterationsChange (checked : bool)
| QualityChange (selected : quality)
| OversamplingChange (selected : Z)
| IterationsChange (value : R).

Definition exec (home_coords : Mandelbrot.coords) (e : event) (s : gui)
  : option gui :=
  match e with
  | Base e => Tk.exec e s
  | ResetToHome => Some (reset_to_home home_coords s)
  | DynamicIterationsChange checked => on_dynamic_iterations_change checked s
  | QualityChange selected => Some (on_quality_change selected s)
  | OversamplingChange selected => Some (on_oversampling_change selected s)
  | IterationsChange value => on_iterations_change value s
  end.

Definition step (home_coords : Mandelbrot.coords) (s s' : gui) : Prop :=
  exists e, exec home_coords e s = Some s'.

(** The states the application reaches from [__init__] around the engine
    object [m]. *)
Inductive reachable (m : Mandelbrot.t) (w h : Z) : gui -> Prop :=
| reach_init : reachable m w h (Tk.init m w h)
| reach_step s s' :
    reachable m w h s -> step (Mandelbrot.coord m) s s' ->
    reachable m w h s'.

End TkMore.

(** * Invariants, scenarios and sample states *)


(** A Kivy screen showing a picture in an image widget of 800 by 600
    placed at the origin. *)
Definition kivy_showing : Kivy.screen :=
  let m := Mandelbrot.initial 600 1 in
  Kivy.set_fractal_image
    (Some {| Kivy.wx := 0; Kivy.wy := 0; Kivy.wwidth := 800;
             Kivy.wheight := 600; Kivy.texture := Some (render m) |})
    (Kivy.init m).


(** The Tk application as [__init__] leaves it, on a canvas of 800 by
    600: zoom level 1, base 500, [maxiter] 500, dynamic iterations on. *)
Definition tk_fresh : Tk.gui := Tk.init (Mandelbrot.initial 600 1) 800 600.


(** Is this [after] job a [check_computation] poll? *)
Definition is_check (j : nat * Tk.callback) : bool :=
  match snd j with Tk.CbCheck => true | _ => false end.

(** The number of pending [check_computation] polls. *)
Definition checks (s : Tk.gui) : nat :=
  length (filter is_check (Tk.after_jobs s)).

(** A flag as a count. *)
Definition b2n (b : bool) : nat := if b then 1%nat else 0%nat.

(** What the scheduler's bookkeeping amounts to: the flag, the number of
    running workers, of queued results, of pending polls, of renders
    started so far. *)
Definition bookkeeping (s : Tk.gui) : bool * nat * nat * nat * nat :=
  (Tk.is_computing s, length (Tk.threads s),
   length (Tk.computation_queue s), checks s, length (Tk.dispatched s)).

(** The invariant: while [is_computing] is set there is exactly one
    render, either still running or finished and queued, and exactly one
    poll waiting for it; otherwise there is none of either. *)
Definition tk_inv (s : Tk.gui) : Prop :=
  (length (Tk.threads s) + length (Tk.computation_queue s))%nat
  = b2n (Tk.is_computing s) /\
  checks s = b2n (Tk.is_computing s).

(** The five ways a step can move the bookkeeping. *)
Inductive move : Tk.gui -> Tk.gui -> Prop :=
| move_none s s' :
    bookkeeping s' = bookkeeping s -> move s s'
| move_dispatch s s' :
    Tk.is_computing s = false -> Tk.is_computing s' = true ->
    Tk.threads s' = Tk.threads s ++ [Tk.mandelbrot s'] ->
    Tk.computation_queue s' = Tk.computation_queue s ->
    checks s' = S (checks s) ->
    Tk.dispatched s' = Tk.dispatched s ++ [Tk.mandelbrot s'] ->
    move s s'
| move_thread_done s s' :
    Tk.is_computing s' = Tk.is_computing s ->
    length (Tk.threads s) = S (length (Tk.threads s')) ->
    length (Tk.computation_queue s') = S (length (Tk.computation_queue s)) ->
    checks s' = checks s ->
    Tk.dispatched s' = Tk.dispatched s ->
    move s s'
| move_poll s s' :
    Tk.computation_queue s = [] ->
    bookkeeping s' = bookkeeping s -> move s s'
| move_complete s s' :
    Tk.is_computing s' = false ->
    Tk.threads s' = Tk.threads s ->
    length (Tk.computation_queue s) = S (length (Tk.computation_queue s')) ->
    checks s = S (checks s') ->
    Tk.dispatched s' = Tk.dispatched s ->
    move s s'.

(** The Kivy scheduler's bookkeeping: the flag, the running workers, the
    callbacks they have scheduled, the renders started so far. *)
Definition kivy_bookkeeping (s : Kivy.screen)
  : bool * list Mandelbrot.t * list Kivy.clock_event * list Mandelbrot.t :=
  (Kivy.is_computing s, Kivy.threads s, Kivy.scheduled s, Kivy.dispatched s).

(** While [is_computing] is set there is at most one render running or
    waiting to be displayed; otherwise there is none. *)
Definition kivy_inv (s : Kivy.screen) : Prop :=
  (length (Kivy.threads s) + length (Kivy.scheduled s)
   <= b2n (Kivy.is_computing s))%nat.

(** A handler either leaves the bookkeeping alone or starts one render,
    and it starts one only when [is_computing] is not set. *)
Definition kivy_move (s s' : Kivy.screen) : Prop :=
  kivy_bookkeeping s' = kivy_bookkeeping s \/
  (Kivy.is_computing s = false /\
   kivy_bookkeeping s'
   = (true, Kivy.threads s ++ [Kivy.mandelbrot s'], Kivy.scheduled s,
      Kivy.dispatched s ++ [Kivy.mandelbrot s'])).

(** The state a scenario leaves the application in ([s] itself when one
    of its events cannot happen). *)
Definition after_run (es : list Tk.event) (s : Tk.gui) : Tk.gui :=
  match Tk.run es s with Some s' => s' | None => s end.

(** A burst of requests: each entry is the time since the previous event
    and the engine parameters the handler leaves. *)
Definition burst_events (b : list (nat * Mandelbrot.t)) : list Tk.event :=
  flat_map (fun r => [Tk.Tick (fst r); Tk.Request (snd r)]) b.

(** Three parameter sets that differ in [maxiter]: 500, 1000, 2000. *)
Definition sample_1 : Mandelbrot.t := Mandelbrot.initial 600 1.
Definition sample_2 : Mandelbrot.t := Mandelbrot.set_maxiter 1000 sample_1.
Definition sample_3 : Mandelbrot.t := Mandelbrot.set_maxiter 2000 sample_1.

(** A render of [sample_1] is running. *)
Definition tk_rendering : Tk.gui :=
  after_run [Tk.Request sample_1; Tk.Tick 100; Tk.Timer 0] tk_fresh.





(** The jobs that [on_canvas_resize] does not cancel. *)
Definition not_resize (j : nat * Tk.callback) : bool :=
  match snd j with Tk.CbSchedule => false | _ => true end.



(** * Properties *)

(** ** Python numbers *)

Section PyNumFacts.

Lemma Rleb_true x y : Rleb x y = true <-> x <= y.
Proof. unfold Rleb; destruct (Rle_dec x y); split; intros; try easy. Qed.

Lemma Rleb_false x y : Rleb x y = false <-> y < x.
Proof.
  unfold Rleb; destruct (Rle_dec x y); split; intros; try easy; lra.
Qed.

Lemma Rltb_true x y : Rltb x y = true <-> x < y.
Proof. unfold Rltb; destruct (Rlt_dec x y); split; intros; try easy. Qed.

Lemma Rltb_false x y : Rltb x y = false <-> y <= x.
Proof.
  unfold Rltb; destruct (Rlt_dec x y); split; intros; try easy; lra.
Qed.

Lemma py_div_nonzero x y : y <> 0 -> py_div x y = Some (x / y).
Proof. intros H; unfold py_div; destruct (Req_dec_T y 0); easy. Qed.


Lemma py_int_nonneg x : 0 <= x -> py_int x = Zfloor x.
Proof. intros H; unfold py_int; destruct (Rle_dec 0 x); easy. Qed.


Lemma py_int_IZR z : py_int (IZR z) = z.
Proof.
  unfold py_int; destruct (Rle_dec 0 (IZR z)).
  - apply ZfloorZ.
  - unfold Zceil. rewrite <- opp_IZR, ZfloorZ. lia.
Qed.

Lemma ln10_pos : 0 < ln 10.
Proof. rewrite <- ln_1. apply ln_increasing; lra. Qed.

Lemma log10_1 : log10 1 = 0.
Proof. unfold log10. rewrite ln_1. unfold Rdiv. ring. Qed.


Lemma log10_le x y : 0 < x -> x <= y -> log10 x <= log10 y.
Proof.
  intros Hx Hxy. unfold log10, Rdiv.
  apply Rmult_le_compat_r.
  - left. apply Rinv_0_lt_compat, ln10_pos.
  - destruct Hxy as [Hlt | ->]; [left; apply ln_increasing; lra | right; easy].
Qed.

Lemma log10_lt x y : 0 < x -> x < y -> log10 x < log10 y.
Proof.
  intros Hx Hxy. unfold log10, Rdiv.
  apply Rmult_lt_compat_r.
  - apply Rinv_0_lt_compat, ln10_pos.
  - apply ln_increasing; lra.
Qed.

Lemma log10_nonneg x : 1 <= x -> 0 <= log10 x.
Proof. intros H. rewrite <- log10_1. apply log10_le; lra. Qed.

Lemma log10_pow n : log10 (10 ^ n) = INR n.
Proof.
  unfold log10. rewrite ln_pow by lra. field.
  apply Rgt_not_eq, ln10_pos.
Qed.




End PyNumFacts.

(** ** The iteration estimator *)

Section EstimatorFacts.

Lemma estimate_at_home z b :
  z <= 1 -> estimate_required_iterations z b = b.
Proof.
  intros H. unfold estimate_required_iterations.
  apply Rleb_true in H. now rewrite H.
Qed.

Lemma estimate_zoomed z b :
  1 < z ->
  estimate_required_iterations z b =
  Z.min (py_int (IZR b * log10 (z + 1) + IZR b)) 50000.
Proof.
  intros H. unfold estimate_required_iterations.
  apply Rleb_false in H. now rewrite H.
Qed.

(** With a non-negative base the raw estimate is at least the base. *)
Lemma raw_estimate_ge_base z b :
  1 <= z -> (0 <= b)%Z -> IZR b <= IZR b * log10 (z + 1) + IZR b.
Proof.
  intros Hz Hb. apply IZR_le in Hb.
  assert (0 <= log10 (z + 1)) by (apply log10_nonneg; lra).
  nra.
Qed.

Lemma raw_estimate_mono z1 z2 b :
  1 <= z1 -> z1 <= z2 -> (0 <= b)%Z ->
  IZR b * log10 (z1 + 1) + IZR b <= IZR b * log10 (z2 + 1) + IZR b.
Proof.
  intros H1 H12 Hb. apply IZR_le in Hb.
  assert (log10 (z1 + 1) <= log10 (z2 + 1)) by (apply log10_le; lra).
  nra.
Qed.




(** C5 (amended).  For a base [b] with [0 <= b <= 50000]: the estimate is
    non-decreasing in the zoom level on [z >= 1], and never exceeds
    50000. *)
Theorem estimate_monotone_and_capped (b : Z) (Hb : (0 <= b <= 50000)%Z) :
  (forall z1 z2, 1 <= z1 -> z1 <= z2 ->
     (estimate_required_iterations z1 b
      <= estimate_required_iterations z2 b)%Z) /\
  (forall z, (estimate_required_iterations z b <= 50000)%Z).
Proof.
  split.
  - intros z1 z2 H1 H12.
    destruct (Rle_dec z2 1) as [H2 | H2].
    + rewrite !estimate_at_home by lra. lia.
    + assert (H2' : 1 < z2) by lra.
      rewrite (estimate_zoomed z2) by easy.
      assert (Hr2 : IZR b <= IZR b * log10 (z2 + 1) + IZR b)
        by (apply raw_estimate_ge_base; [lra | lia]).
      assert (Hb0 : 0 <= IZR b) by (apply IZR_le; lia).
      destruct (Rle_dec z1 1) as [H1' | H1'].
      * rewrite estimate_at_home by easy.
        apply Z.min_glb; [| lia].
        rewrite py_int_nonneg by lra. now apply Zfloor_lub.
      * rewrite estimate_zoomed by lra.
        apply Z.min_le_compat_r.
        assert (Hr1 : IZR b <= IZR b * log10 (z1 + 1) + IZR b)
          by (apply raw_estimate_ge_base; [lra | lia]).
        rewrite !py_int_nonneg by lra.
        apply Zfloor_le, raw_estimate_mono; [lra | easy | lia].
  - intros z. destruct (Rle_dec z 1) as [H | H].
    + rewrite estimate_at_home by easy. lia.
    + rewrite estimate_zoomed by lra. apply Z.le_min_r.
Qed.

Lemma estimate_monotone_and_capped_witness :
  (estimate_required_iterations 1 500
   <= estimate_required_iterations 9 500)%Z /\
  (estimate_required_iterations 9 500 <= 50000)%Z.
Proof.
  assert (Hb : (0 <= 500 <= 50000)%Z) by lia.
  split.
  - apply (proj1 (estimate_monotone_and_capped 500 Hb)); lra.
  - apply (proj2 (estimate_monotone_and_capped 500 Hb)).
Defined.

(** C5, as stated, fails for a base above the cap: at [z = 1] the base
    60000 is returned unchanged, above 50000, and the estimate then drops
    to 50000 at [z = 2]. *)
Lemma estimate_uncapped_at_home :
  estimate_required_iterations 1 60000 = 60000%Z /\
  (50000 < estimate_required_iterations 1 60000)%Z /\
  1 <= 1 <= 2 /\
  (estimate_required_iterations 2 60000
   < estimate_required_iterations 1 60000)%Z.
Proof.
  assert (E : estimate_required_iterations 1 60000 = 60000%Z)
    by (apply estimate_at_home; lra).
  rewrite E. repeat split; try lia; try lra.
  rewrite estimate_zoomed by lra.
  apply Z.le_lt_trans with 50000%Z; [apply Z.le_min_r | lia].
Qed.

End EstimatorFacts.

(** ** The precision advisory *)

Section PrecisionFacts.

Lemma digits_at (n : nat) :
  decimal_digits_needed (get_precision_at_zoom (10 ^ n)) = (Z.of_nat n + 2)%Z.
Proof.
  unfold get_precision_at_zoom; cbn [decimal_digits_needed].
  assert (H : 1 <= 10 ^ n) by (apply pow_R1_Rle; lra).
  rewrite Rmax_left by easy.
  rewrite log10_pow, INR_IZR_INZ, py_int_IZR. lia.
Qed.

(** C6.  [get_precision_at_zoom z] returns
    [digits = max(1, floor(log10(max(z, 1))) + 2)],
    [warning = (digits > 0.8 * 15)] and
    [percent = min(100, digits / 15 * 100)]; at zoom 1 the digits are 2 and
    there is no warning; at zoom [10 ^ 13] there is one. *)
Theorem get_precision_at_zoom_value :
  (forall z,
     let p := get_precision_at_zoom z in
     decimal_digits_needed p = Z.max 1 (Zfloor (log10 (Rmax z 1)) + 2) /\
     (precision_warning p = true <->
      IZR (decimal_digits_needed p) > 0.8 * 15) /\
     precision_percent p
     = Rmin 100 (IZR (decimal_digits_needed p) / 15 * 100)) /\
  decimal_digits_needed (get_precision_at_zoom 1) = 2%Z /\
  precision_warning (get_precision_at_zoom 1) = false /\
  precision_warning (get_precision_at_zoom (10 ^ 13)) = true.
Proof.
  split; [| split; [| split]].
  - intros z p. subst p. unfold get_precision_at_zoom.
    cbn [decimal_digits_needed precision_warning precision_percent].
    rewrite py_int_nonneg by (apply log10_nonneg, Rmax_r).
    split; [easy |]. split; [| easy].
    rewrite Rltb_true. lra.
  - replace 1 with (10 ^ 0) by ring. now rewrite digits_at.
  - pose proof (digits_at 0) as H. replace (10 ^ 0) with 1 in H by ring.
    unfold get_precision_at_zoom in *.
    cbn [decimal_digits_needed precision_warning] in *.
    rewrite H. apply Rltb_false. cbn. lra.
  - pose proof (digits_at 13) as H.
    unfold get_precision_at_zoom in *.
    cbn [decimal_digits_needed precision_warning] in *.
    rewrite H. apply Rltb_true. cbn. lra.
Qed.

End PrecisionFacts.

(** ** The history of views *)

Section HistoryFacts.

Context {A : Type}.

Lemma tl_skipn (k : nat) (l : list A) : tl (skipn k l) = skipn (S k) l.
Proof.
  revert l. induction k as [| k IH]; intros [| x l]; try easy.
  apply (IH l).
Qed.

Lemma tl_app_nonempty (l : list A) (c : A) :
  l <> [] -> tl (l ++ [c]) = tl l ++ [c].
Proof. destruct l; easy. Qed.

(** Dropping the oldest entry before the append or after it gives the
    same list, for every capacity but zero. *)
Lemma save_push_spec (capacity : nat) (h : list A) (c : A) :
  (0 < capacity)%nat ->
  History.save capacity h c = History.push_spec capacity h c.
Proof.
  intros Hc. unfold History.save, History.push_spec.
  rewrite length_app, Nat.add_1_r. cbn [length].
  destruct (Nat.leb_spec capacity (length h)) as [H | H].
  - destruct (Nat.ltb_spec capacity (S (length h))) as [_ | H']; [| lia].
    symmetry. apply tl_app_nonempty. destruct h; cbn in H; [lia | easy].
  - destruct (Nat.ltb_spec capacity (S (length h))) as [H' | _]; [lia | easy].
Qed.


Lemma pushes_snoc (capacity : nat) (h cs : list A) (c : A) :
  History.pushes capacity h (cs ++ [c])
  = History.save capacity (History.pushes capacity h cs) c.
Proof. unfold History.pushes. now rewrite fold_left_app. Qed.

(** Pushing a whole list onto the empty history keeps its last
    [capacity] entries, in push order. *)
Lemma pushes_keeps_last (capacity : nat) (cs : list A) :
  (0 < capacity)%nat ->
  History.pushes capacity [] cs = skipn (length cs - capacity) cs.
Proof.
  intros Hc. induction cs as [| c cs IH] using rev_ind; [easy |].
  rewrite pushes_snoc, IH. unfold History.save.
  rewrite length_skipn, length_app, Nat.add_1_r.
  destruct (Nat.leb_spec capacity (length cs - (length cs - capacity)))
    as [H | H].
  - rewrite tl_skipn.
    replace (S (length cs) - capacity)%nat
      with (S (length cs - capacity)) by lia.
    rewrite skipn_app.
    replace (S (length cs - capacity) - length cs)%nat with 0%nat by lia.
    easy.
  - replace (length cs - capacity)%nat with 0%nat by lia.
    replace (S (length cs) - capacity)%nat with 0%nat by lia.
    easy.
Qed.

End HistoryFacts.

(** C7.  [save_current_view] appends the current bounds to the history
    and, once the history holds 20 entries, drops the oldest one: the
    result is the one of "append, then drop index 0 when the size exceeds
    20".  After 21 pushes onto the empty history the first-pushed entry
    is gone and entries 2 to 21 remain, in push order. *)
Theorem history_push_evicts_oldest :
  (forall s : Tk.gui,
     Tk.zoom_history (Tk.save_current_view s)
     = History.push_spec 20 (Tk.zoom_history s)
         (Mandelbrot.coord (Tk.mandelbrot s))) /\
  (forall (A : Type) (h : list A) (c : A),
     History.save 20 h c = History.push_spec 20 h c) /\
  (forall (A : Type) (first : A) (others : list A),
     length others = 20%nat ->
     History.pushes 20 [] (first :: others) = others).
Proof.
  split; [| split].
  - intros s. unfold Tk.save_current_view, Tk.set_zoom_history.
    cbn [Tk.zoom_history]. apply save_push_spec. unfold History.max_history.
    lia.
  - intros A h c. apply save_push_spec. lia.
  - intros A first others H.
    rewrite pushes_keeps_last by lia. cbn [length]. rewrite H. easy.
Qed.

Lemma history_push_evicts_oldest_witness :
  History.pushes 20 [] (seq 1 21) = seq 2 20.
Proof.
  apply (proj2 (proj2 history_push_evicts_oldest) nat 1%nat (seq 2 20)).
  reflexivity.
Defined.

(** ** Pixel to complex-plane conversion *)

Section CoordinateFacts.


(** C8, on the Kivy front-end.  [screen_to_fractal_coords] does not check
    the position against the widget: a touch at [(900, 5)], to the right
    of an 800 pixel wide widget, is converted to a point to the right of
    [xmax] instead of being rejected. *)
Theorem screen_to_fractal_coords_unchecked :
  exists fx fy,
    Kivy.screen_to_fractal_coords kivy_showing (900, 5)
    = Some (Some (fx, fy)) /\
    fx = 2.400625 /\
    1.845 < fx.
Proof.
  eexists; eexists. split; [| split].
  - unfold Kivy.screen_to_fractal_coords, kivy_showing.
    cbn [Kivy.fractal_image Kivy.set_fractal_image Kivy.texture Kivy.wx
         Kivy.wy Kivy.wwidth Kivy.wheight Kivy.mandelbrot Kivy.init
         Mandelbrot.coord Mandelbrot.initial Mandelbrot.home_coords
         fst snd].
    rewrite !py_div_nonzero by lra. reflexivity.
  - lra.
  - lra.
Qed.

End CoordinateFacts.

(** ** The iteration budget after a zoom *)

Section DynamicIterationsFacts.



(** The Tk front-end's inline estimate is defined for [zoom_level > -1],
    and above zoom 1 it is [estimate_required_iterations]. *)
Lemma inline_estimate_defined z b :
  -1 < z ->
  Tk.inline_estimate z b
  = Some (Z.min (py_int (IZR b * log10 (z + 1) + IZR b)) 50000).
Proof.
  intros H. unfold Tk.inline_estimate, math_log.
  destruct (Rlt_dec 0 (z + 1)); [easy | lra].
Qed.

Lemma inline_estimate_zoomed z b :
  1 < z ->
  Tk.inline_estimate z b = Some (estimate_required_iterations z b).
Proof.
  intros H. rewrite inline_estimate_defined by lra.
  now rewrite estimate_zoomed.
Qed.





End DynamicIterationsFacts.

Section DynamicIterationsExamples.





End DynamicIterationsExamples.

(** ** Zooming *)

Section ZoomFacts.





Lemma schedule_update_view (s : Tk.gui) :
  Tk.zoom_level (Tk.schedule_update s) = Tk.zoom_level s /\
  Tk.mandelbrot (Tk.schedule_update s) = Tk.mandelbrot s.
Proof. unfold Tk.schedule_update. destruct (Tk.update_pending s); easy. Qed.










End ZoomFacts.

(** ** The render scheduler of the Tk front-end *)

Section TkSchedulerFacts.

Lemma remove_nth_split {A : Type} (i : nat) (l : list A) (x : A) :
  nth_error l i = Some x ->
  exists l1 l2, l = l1 ++ x :: l2 /\ Tk.remove_nth i l = l1 ++ l2.
Proof.
  intros H. destruct (nth_error_split l i H) as [l1 [l2 [-> Hlen]]].
  exists l1, l2. split; [easy |]. unfold Tk.remove_nth. subst i.
  rewrite firstn_app, Nat.sub_diag, firstn_all. cbn [firstn].
  rewrite app_nil_r. f_equal.
  rewrite skipn_app.
  replace (S (length l1) - length l1)%nat with 1%nat by lia.
  rewrite skipn_all2 by lia. easy.
Qed.

Lemma filter_check_not_resize (l : list (nat * Tk.callback)) :
  filter is_check
    (filter (fun j => match snd j with Tk.CbSchedule => false | _ => true end)
       l)
  = filter is_check l.
Proof.
  induction l as [| [due cb] l IH]; [easy |].
  destruct cb; cbn; rewrite ?IH; easy.
Qed.

Lemma bookkeeping_schedule_update (s : Tk.gui) :
  bookkeeping (Tk.schedule_update s) = bookkeeping s.
Proof.
  unfold Tk.schedule_update. destruct (Tk.update_pending s); [easy |].
  unfold bookkeeping, checks, Tk.after. cbn.
  rewrite filter_app. cbn. now rewrite app_nil_r.
Qed.

Lemma bookkeeping_update_dynamic_iterations (s s' : Tk.gui) :
  Tk.update_dynamic_iterations s = Some s' -> bookkeeping s' = bookkeeping s.
Proof.
  unfold Tk.update_dynamic_iterations.
  destruct (Tk.dynamic_iterations s).
  - destruct (Tk.inline_estimate _ _) as [new |]; [| easy].
    destruct (Tk.significantly_different _ _); intros [= <-]; easy.
  - intros [= <-]. easy.
Qed.

Lemma bookkeeping_zoom_handler factor scale ex ey (s s' : Tk.gui) :
  Tk.zoom_handler factor scale ex ey s = Some s' ->
  bookkeeping s' = bookkeeping s.
Proof.
  unfold Tk.zoom_handler.
  destruct (Tk.has_image s && negb (Tk.is_computing s));
    [| now intros [= <-]].
  destruct (Tk.canvas_to_complex s ex ey) as [[x y] |];
    [| now intros [= <-]].
  unfold Tk.zoom_to.
  destruct (Tk.update_dynamic_iterations _) as [s1 |] eqn:E; [| easy].
  intros [= <-]. rewrite bookkeeping_schedule_update.
  now rewrite (bookkeeping_update_dynamic_iterations _ _ E).
Qed.

Lemma bookkeeping_on_canvas_resize w h (s : Tk.gui) :
  bookkeeping (Tk.on_canvas_resize w h s) = bookkeeping s.
Proof.
  unfold Tk.on_canvas_resize.
  cbn [Tk.is_computing Tk.set_winfo Tk.set_after_jobs].
  destruct (Tk.is_computing s) eqn:E;
    unfold bookkeeping, checks, Tk.after; cbn;
    rewrite ?filter_app, filter_check_not_resize, E; cbn;
    now rewrite ?app_nil_r.
Qed.

(** Every step is one of the five moves. *)
Lemma exec_move (e : Tk.event) (s s' : Tk.gui) :
  Tk.exec e s = Some s' -> move s s'.
Proof.
  destruct e as [m | x y | x y | d x y | w h | ms | i | i raised];
    cbn [Tk.exec].
  - intros [= <-]. apply move_none.
    now rewrite bookkeeping_schedule_update.
  - intros H. apply move_none. eapply bookkeeping_zoom_handler, H.
  - intros H. apply move_none. eapply bookkeeping_zoom_handler, H.
  - intros H. apply move_none. unfold Tk.on_canvas_scroll in H.
    destruct (0 <? d)%Z; eapply bookkeeping_zoom_handler, H.
  - intros [= <-]. apply move_none, bookkeeping_on_canvas_resize.
  - intros [= <-]. now apply move_none.
  - destruct (nth_error (Tk.after_jobs s) i) as [[due cb] |] eqn:E; [| easy].
    destruct (due <=? Tk.clock s)%nat; [| easy].
    destruct (remove_nth_split _ _ _ E) as [l1 [l2 [Hl Hr]]].
    rewrite Hr. intros [= <-].
    assert (Hc : length (filter is_check (Tk.after_jobs s))
                 = (length (filter is_check (l1 ++ l2))
                    + b2n (is_check (due, cb)))%nat).
    { rewrite Hl, !filter_app, !length_app. cbn [filter].
      destruct (is_check (due, cb)); cbn [length b2n]; lia. }
    destruct cb; cbn [Tk.run_callback is_check snd b2n] in *.
    + (* update_mandelbrot *)
      unfold Tk.update_mandelbrot. cbn.
      destruct (Tk.is_computing s) eqn:Ec.
      * apply move_none. unfold bookkeeping, checks. cbn.
        now rewrite Ec, Hc, Nat.add_0_r.
      * apply move_dispatch; cbn; try easy.
        unfold checks. cbn. rewrite filter_app, length_app, Hc. cbn. lia.
    + (* check_computation *)
      unfold Tk.check_computation. cbn.
      destruct (Tk.computation_queue s) as [| item rest] eqn:Eq.
      * apply move_poll; [easy |]. unfold bookkeeping, checks. cbn.
        rewrite Eq, filter_app, length_app, Hc. cbn. easy.
      * apply move_complete; destruct item; cbn; try easy;
          try (rewrite Eq; easy); unfold checks; cbn; lia.
    + (* schedule_update *)
      apply move_none. rewrite bookkeeping_schedule_update.
      unfold bookkeeping, checks. cbn. now rewrite Hc, Nat.add_0_r.
  - destruct (nth_error (Tk.threads s) i) as [m |] eqn:E; [| easy].
    destruct (remove_nth_split _ _ _ E) as [l1 [l2 [Hl Hr]]].
    rewrite Hr. intros [= <-].
    apply move_thread_done; cbn; try easy.
    + rewrite Hl, !length_app. cbn. lia.
    + rewrite length_app. cbn. lia.
Qed.

Lemma move_preserves_inv (s s' : Tk.gui) :
  move s s' -> tk_inv s -> tk_inv s'.
Proof.
  unfold tk_inv.
  intros [s0 s1 H | s0 s1 Hc Hc' Ht Hq Hk Hd | s0 s1 Hc Ht Hq Hk Hd
          | s0 s1 Hq H | s0 s1 Hc Ht Hq Hk Hd] [I1 I2].
  - unfold bookkeeping in H. injection H as -> -> -> -> _. easy.
  - rewrite Hc in *. rewrite Hc', Ht, Hq, Hk, length_app. cbn in *. lia.
  - rewrite Hc, Hk. lia.
  - unfold bookkeeping in H. injection H as -> -> -> -> _. easy.
  - rewrite Hc, Ht. destruct (Tk.is_computing s0); cbn in *; lia.
Qed.

Lemma tk_inv_init m w h : tk_inv (Tk.init m w h).
Proof. easy. Qed.

Lemma tk_inv_reachable m w h s :
  Tk.reachable (Tk.init m w h) s -> tk_inv s.
Proof.
  induction 1 as [| s s' _ IH [e He]]; [apply tk_inv_init |].
  eapply move_preserves_inv; [eapply exec_move, He | exact IH].
Qed.

End TkSchedulerFacts.

(** ** The render scheduler of the Kivy front-end *)

Section KivySchedulerFacts.

Lemma kivy_update_mandelbrot_move (s0 s : Kivy.screen) :
  kivy_bookkeeping s = kivy_bookkeeping s0 ->
  kivy_move s0 (Kivy.update_mandelbrot s).
Proof.
  intros H. unfold kivy_bookkeeping in H. injection H as Hc Ht Hs Hd.
  unfold Kivy.update_mandelbrot. destruct (Kivy.is_computing s) eqn:E.
  - left. unfold kivy_bookkeeping. now rewrite E, Hc, Ht, Hs, Hd.
  - right. split; [now rewrite <- Hc |].
    unfold kivy_bookkeeping. cbn. now rewrite Ht, Hs, Hd.
Qed.

Lemma kivy_update_dynamic_iterations_bookkeeping (s : Kivy.screen) :
  kivy_bookkeeping (Kivy.update_dynamic_iterations s) = kivy_bookkeeping s.
Proof.
  unfold Kivy.update_dynamic_iterations.
  destruct (negb (Kivy.dynamic_iterations s)); [easy |].
  destruct (Tk.significantly_different _ _); easy.
Qed.

Lemma kivy_zoom_at_point_move pos zoom_out (s s' : Kivy.screen) :
  Kivy.zoom_at_point pos zoom_out s = Some s' -> kivy_move s s'.
Proof.
  unfold Kivy.zoom_at_point.
  destruct (Kivy.is_computing s || _); [intros [= <-]; now left |].
  destruct (Kivy.screen_to_fractal_coords s pos) as [[[fx fy] |] |];
    [| intros [= <-]; now left | easy].
  intros [= <-]. apply kivy_update_mandelbrot_move.
  now rewrite kivy_update_dynamic_iterations_bookkeeping.
Qed.

Lemma kivy_reset_to_home_move (s : Kivy.screen) :
  kivy_move s (Kivy.reset_to_home s).
Proof.
  unfold Kivy.reset_to_home.
  destruct (Kivy.is_computing s); [now left |].
  now apply kivy_update_mandelbrot_move.
Qed.

Lemma kivy_move_inv (s s' : Kivy.screen) :
  kivy_move s s' -> kivy_inv s ->
  kivy_inv s' /\
  ((length (Kivy.dispatched s) < length (Kivy.dispatched s'))%nat ->
   Kivy.threads s = [] /\ length (Kivy.threads s') = 1%nat).
Proof.
  unfold kivy_inv, kivy_bookkeeping.
  intros [H | [Hc H]] I; injection H as -> -> -> ->.
  - split; [easy | lia].
  - rewrite Hc in I. cbn in I.
    assert (Ht : Kivy.threads s = [])
      by (destruct (Kivy.threads s); [easy | cbn in I; lia]).
    rewrite Ht in *. cbn in *. split; [lia | easy].
Qed.

Lemma kivy_exec_inv (e : Kivy.event) (s s' : Kivy.screen) :
  Kivy.exec e s = Some s' -> kivy_inv s ->
  kivy_inv s' /\
  ((length (Kivy.dispatched s) < length (Kivy.dispatched s'))%nat ->
   Kivy.threads s = [] /\ length (Kivy.threads s') = 1%nat).
Proof.
  destruct e as [| pos zoom_out | | w | i raised | i]; cbn [Kivy.exec].
  - intros [= <-]. apply kivy_move_inv.
    now apply kivy_update_mandelbrot_move.
  - intros H. eapply kivy_move_inv, kivy_zoom_at_point_move, H.
  - intros [= <-]. apply kivy_move_inv, kivy_reset_to_home_move.
  - intros [= <-]. apply kivy_move_inv. now left.
  - destruct (nth_error (Kivy.threads s) i) as [m |] eqn:E; [| easy].
    destruct (remove_nth_split _ _ _ E) as [l1 [l2 [Hl Hr]]].
    rewrite Hr. intros [= <-]. unfold kivy_inv. cbn.
    rewrite Hl, !length_app. cbn [length]. lia.
  - destruct (nth_error (Kivy.scheduled s) i) as [ev |] eqn:E; [| easy].
    destruct (remove_nth_split _ _ _ E) as [l1 [l2 [Hl Hr]]].
    rewrite Hr. intros [= <-]. unfold kivy_inv.
    rewrite Hl, !length_app. cbn [length]. intros I.
    assert (Hc : Kivy.is_computing s = true)
      by (destruct (Kivy.is_computing s); [easy | cbn in I; lia]).
    rewrite Hc in I. cbn in I.
    destruct ev as [img | msg].
    + unfold Kivy.display_result. cbn.
      destruct (Kivy.fractal_image s); cbn; rewrite ?Hc, length_app;
        cbn; lia.
    + cbn. rewrite length_app. lia.
Qed.

Lemma kivy_inv_reachable m s :
  Kivy.reachable (Kivy.init m) s -> kivy_inv s.
Proof.
  induction 1 as [| s s' _ IH [e He]]; [unfold kivy_inv; cbn; lia |].
  now apply (kivy_exec_inv e s s' He).
Qed.

End KivySchedulerFacts.

(** C3.  Single flight.  In every state either front-end can reach, at
    most one render computation is executing, and a step that starts a
    render starts it from a state in which none is executing (nor, in the
    Tk front-end, waiting in the queue). *)
Theorem single_flight :
  (forall m w h s,
     Tk.reachable (Tk.init m w h) s ->
     (length (Tk.threads s) <= 1)%nat /\
     (forall s', Tk.step s s' -> Tk.dispatches s s' ->
        Tk.threads s = [] /\ Tk.computation_queue s = [] /\
        length (Tk.threads s') = 1%nat)) /\
  (forall m s,
     Kivy.reachable (Kivy.init m) s ->
     (length (Kivy.threads s) <= 1)%nat /\
     (forall s', Kivy.step s s' ->
        (length (Kivy.dispatched s) < length (Kivy.dispatched s'))%nat ->
        Kivy.threads s = [] /\ length (Kivy.threads s') = 1%nat)).
Proof.
  split.
  - intros m w h s Hr. pose proof (tk_inv_reachable _ _ _ _ Hr) as [I1 I2].
    split; [destruct (Tk.is_computing s); cbn in I1; lia |].
    intros s' [e He] Hd. unfold Tk.dispatches in Hd.
    destruct (exec_move _ _ _ He)
      as [s0 s1 H | s0 s1 Hc Hc' Ht Hq Hk Hd' | s0 s1 Hc Ht Hq Hk Hd'
          | s0 s1 Hq H | s0 s1 Hc Ht Hq Hk Hd'];
      try (unfold bookkeeping in H; injection H as _ _ _ _ H; lia);
      try (rewrite Hd' in Hd; lia).
    rewrite Hc in I1. cbn in I1.
    destruct (Tk.threads s0); [| cbn in I1; lia].
    destruct (Tk.computation_queue s0); [| cbn in I1; lia].
    rewrite Ht. easy.
  - intros m s Hr. pose proof (kivy_inv_reachable _ _ Hr) as I.
    split; [unfold kivy_inv in I; destruct (Kivy.is_computing s);
            cbn in I; lia |].
    intros s' [e He] Hd. now apply (kivy_exec_inv e s s' He).
Qed.

(** ** Requests, bursts and renders in flight *)

Section TkRequestFacts.

Ltac run_tk :=
  cbv -[IZR Rplus Rminus Rmult Rdiv Rinv Ropp Rle_dec Rlt_dec Zfloor Zceil
        ln].

Lemma run_reachable (es : list Tk.event) (s0 s s' : Tk.gui) :
  Tk.reachable s0 s -> Tk.run es s = Some s' -> Tk.reachable s0 s'.
Proof.
  revert s. induction es as [| e es IH]; intros s Hr; cbn [Tk.run].
  - now intros [= <-].
  - destruct (Tk.exec e s) as [s1 |] eqn:E; [| easy].
    apply IH. eapply Tk.reach_step; [exact Hr | now exists e].
Qed.





Lemma last_cons_default {A : Type} (x : A) (l : list A) (d d' : A) :
  last (x :: l) d = last (x :: l) d'.
Proof.
  revert x. induction l as [| y l IH]; intros x; [easy |].
  cbn [last] in *. apply IH.
Qed.

(** While an update is pending, further requests only change the engine
    parameters (and let time pass). *)
Lemma run_burst_pending (b : list (nat * Mandelbrot.t)) (s : Tk.gui) :
  Tk.update_pending s = true ->
  exists s',
    Tk.run (burst_events b) s = Some s' /\
    Tk.update_pending s' = true /\
    Tk.after_jobs s' = Tk.after_jobs s /\
    Tk.is_computing s' = Tk.is_computing s /\
    Tk.threads s' = Tk.threads s /\
    Tk.dispatched s' = Tk.dispatched s /\
    Tk.preview_quality s' = Tk.preview_quality s /\
    Tk.oversampling s' = Tk.oversampling s /\
    Tk.winfo_width s' = Tk.winfo_width s /\
    Tk.winfo_height s' = Tk.winfo_height s /\
    (Tk.clock s <= Tk.clock s')%nat /\
    Tk.mandelbrot s' = snd (last b (0%nat, Tk.mandelbrot s)).
Proof.
  revert s. induction b as [| [dt m] b IH]; intros s Hp.
  - exists s. cbn. repeat split; try easy; lia.
  - cbn [burst_events flat_map app Tk.run Tk.exec fst snd].
    set (s1 := Tk.schedule_update
                 (Tk.set_mandelbrot m (Tk.set_clock (Tk.clock s + dt) s))).
    assert (E : s1 = Tk.set_mandelbrot m (Tk.set_clock (Tk.clock s + dt) s)).
    { unfold s1, Tk.schedule_update. cbn. now rewrite Hp. }
    destruct (IH s1) as [s' H]; [rewrite E; exact Hp |].
    destruct H as (Hr & H1 & H2 & H3 & H4 & H5 & H6 & H7 & H8 & H9 & H10 & H11).
    exists s'. fold (burst_events b). rewrite Hr.
    rewrite H2, H3, H4, H5, H6, H7, H8, H9, H11, E.
    cbn. repeat split; try easy.
    + rewrite E in H10. cbn in H10. lia.
    + destruct b as [| r b]; [easy |].
      apply f_equal, last_cons_default.
Qed.

(** C2 (amended).  A request always succeeds.  A request made while an
    update is already pending arms no timer and moves none: the one timer
    of a burst expires 100 ms after the first request of the burst.  No
    snapshot is stored; the render reads the engine parameters when it is
    dispatched.  So the [N >= 1] requests made before that timer expires
    yield exactly one dispatched render, with the parameters the last of
    them left. *)
Theorem burst_yields_one_render (s0 : Tk.gui) (dt1 : nat)
  (m1 : Mandelbrot.t) (rest : list (nat * Mandelbrot.t)) :
  Tk.update_pending s0 = false ->
  Tk.is_computing s0 = false ->
  let burst := (dt1, m1) :: rest in
  let m_last := snd (last burst (dt1, m1)) in
  let due := (Tk.clock s0 + dt1 + 100)%nat in
  (forall s m, exists s', Tk.exec (Tk.Request m) s = Some s') /\
  exists s1,
    Tk.run (burst_events burst) s0 = Some s1 /\
    Tk.after_jobs s1 = Tk.after_jobs s0 ++ [(due, Tk.CbUpdate)] /\
    Tk.mandelbrot s1 = m_last /\
    Tk.dispatched s1 = Tk.dispatched s0 /\
    forall wait,
      (due <= Tk.clock s1 + wait)%nat ->
      exists s2,
        Tk.run [Tk.Tick wait; Tk.Timer (length (Tk.after_jobs s0))] s1
        = Some s2 /\
        Tk.dispatched s2
        = Tk.dispatched s0
          ++ [Tk.prepare (Tk.preview_quality s0) (Tk.oversampling s0)
                (Tk.winfo_width s0) (Tk.winfo_height s0) m_last] /\
        Tk.threads s2 = Tk.threads s0 ++ [Tk.mandelbrot s2] /\
        Tk.update_pending s2 = false /\
        Tk.after_jobs s2
        = Tk.after_jobs s0 ++ [((Tk.clock s1 + wait + 100)%nat, Tk.CbCheck)].
Proof.
  intros Hp Hc burst m_last due.
  split; [intros s m; now eexists |].
  set (sa := Tk.schedule_update
               (Tk.set_mandelbrot m1 (Tk.set_clock (Tk.clock s0 + dt1) s0))).
  assert (Ea : sa = Tk.after 100 Tk.CbUpdate
                      (Tk.set_update_pending true
                         (Tk.set_mandelbrot m1
                            (Tk.set_clock (Tk.clock s0 + dt1) s0)))).
  { unfold sa, Tk.schedule_update. cbn. now rewrite Hp. }
  destruct (run_burst_pending rest sa) as [s1 H];
    [rewrite Ea; easy |].
  destruct H as (Hr & H1 & H2 & H3 & H4 & H5 & H6 & H7 & H8 & H9 & H10 & H11).
  assert (Hm : Tk.mandelbrot s1 = m_last).
  { rewrite H11, Ea. subst m_last burst. cbn [Tk.mandelbrot Tk.after
      Tk.set_after_jobs Tk.set_update_pending Tk.set_mandelbrot].
    destruct rest as [| r rest]; [easy |]. cbn [last].
    apply f_equal, last_cons_default. }
  assert (Hj : Tk.after_jobs s1 = Tk.after_jobs s0 ++ [(due, Tk.CbUpdate)]).
  { rewrite H2, Ea. easy. }
  exists s1. split.
  { subst burst. cbn [burst_events flat_map app Tk.run Tk.exec fst snd].
    fold (burst_events rest). fold sa. exact Hr. }
  split; [exact Hj |]. split; [exact Hm |].
  split; [rewrite H5, Ea; easy |].
  intros wait Hw.
  cbn [Tk.run Tk.exec Tk.after_jobs Tk.set_clock Tk.clock].
  rewrite Hj, nth_error_app2, Nat.sub_diag by lia. cbn [nth_error].
  destruct (Nat.leb_spec due (Tk.clock s1 + wait)) as [_ | Hlt]; [| lia].
  eexists. split; [reflexivity |].
  unfold Tk.remove_nth.
  rewrite firstn_app, Nat.sub_diag, firstn_all, skipn_app.
  rewrite skipn_all2 by lia.
  replace (S (length (Tk.after_jobs s0)) - length (Tk.after_jobs s0))%nat
    with 1%nat by lia.
  cbn [firstn skipn app]. rewrite !app_nil_r.
  unfold Tk.run_callback, Tk.update_mandelbrot.
  cbn [Tk.is_computing Tk.set_update_pending Tk.set_after_jobs Tk.set_clock].
  rewrite H3, Ea.
  cbn [Tk.is_computing Tk.after Tk.set_after_jobs Tk.set_update_pending
       Tk.set_mandelbrot Tk.set_clock].
  rewrite Hc. cbn. rewrite H5, H4, H6, H7, H8, H9, Hm, Ea. easy.
Qed.

Lemma burst_yields_one_render_witness :
  exists s1,
    Tk.run (burst_events [(0%nat, sample_1); (50%nat, sample_2)]) tk_fresh
    = Some s1 /\
    Tk.after_jobs s1
    = Tk.after_jobs tk_fresh
      ++ [((Tk.clock tk_fresh + 0 + 100)%nat, Tk.CbUpdate)] /\
    Tk.mandelbrot s1
    = snd (last [(0%nat, sample_1); (50%nat, sample_2)] (0%nat, sample_1)) /\
    Tk.dispatched s1 = Tk.dispatched tk_fresh /\
    forall wait,
      (Tk.clock tk_fresh + 0 + 100 <= Tk.clock s1 + wait)%nat ->
      exists s2,
        Tk.run [Tk.Tick wait; Tk.Timer (length (Tk.after_jobs tk_fresh))] s1
        = Some s2 /\
        Tk.dispatched s2
        = Tk.dispatched tk_fresh
          ++ [Tk.prepare (Tk.preview_quality tk_fresh)
                (Tk.oversampling tk_fresh) (Tk.winfo_width tk_fresh)
                (Tk.winfo_height tk_fresh)
                (snd (last [(0%nat, sample_1); (50%nat, sample_2)]
                        (0%nat, sample_1)))] /\
        Tk.threads s2 = Tk.threads tk_fresh ++ [Tk.mandelbrot s2] /\
        Tk.update_pending s2 = false /\
        Tk.after_jobs s2
        = Tk.after_jobs tk_fresh
          ++ [((Tk.clock s1 + wait + 100)%nat, Tk.CbCheck)].
Proof.
  apply (proj2 (burst_yields_one_render tk_fresh 0 sample_1
                  [(50%nat, sample_2)] eq_refl eq_refl)).
Defined.

(** C2, as stated, fails.  A second request 50 ms after the first leaves
    the timer due at 100 ms: it is not reset to 150 ms.  And three
    requests at 0, 60 and 120 ms, each less than 100 ms after the one
    before, do not collapse into one render of the third: at 100 ms a
    render of the second has been dispatched, and the third request arms
    a timer of its own. *)
Lemma timer_is_not_reset :
  (exists s,
     Tk.run [Tk.Request sample_1; Tk.Tick 50; Tk.Request sample_2] tk_fresh
     = Some s /\
     Tk.clock s = 50%nat /\
     Tk.after_jobs s = [(100%nat, Tk.CbUpdate)]) /\
  (exists s,
     Tk.run [Tk.Request sample_1; Tk.Tick 60; Tk.Request sample_2;
             Tk.Tick 40; Tk.Timer 0; Tk.Tick 20; Tk.Request sample_3]
       tk_fresh = Some s /\
     Tk.clock s = 120%nat /\
     map Mandelbrot.maxiter (Tk.dispatched s) = [1000%Z] /\
     Mandelbrot.maxiter (Tk.mandelbrot s) = 2000%Z /\
     Tk.after_jobs s = [(200%nat, Tk.CbCheck); (220%nat, Tk.CbUpdate)]).
Proof.
  split; eexists; (split; [run_tk; reflexivity |]); run_tk; repeat split.
Qed.

Lemma tk_rendering_reachable :
  Tk.reachable (Tk.init (Mandelbrot.initial 600 1) 800 600) tk_rendering.
Proof.
  apply run_reachable
    with (es := [Tk.Request sample_1; Tk.Tick 100; Tk.Timer 0])
         (s := tk_fresh).
  - apply Tk.reach_refl.
  - run_tk. reflexivity.
Qed.

Lemma single_flight_witness :
  length (Tk.threads tk_rendering) = 1%nat /\
  (length (Tk.threads tk_rendering) <= 1)%nat /\
  (forall s', Tk.step tk_rendering s' -> Tk.dispatches tk_rendering s' ->
     Tk.threads tk_rendering = [] /\ Tk.computation_queue tk_rendering = []
     /\ length (Tk.threads s') = 1%nat).
Proof.
  split; [run_tk; reflexivity |].
  apply (proj1 single_flight (Mandelbrot.initial 600 1) 800%Z 600%Z
           tk_rendering tk_rendering_reachable).
Defined.

End TkRequestFacts.

(** * Further properties of the code *)

(** ** deep_zoom_utils.py *)

Section ColorFacts.

(** X1.  [adjust_color_parameters]: both densities are non-decreasing in
    the zoom level, and the cycle density is always at least twice the
    stripe density. *)
Theorem color_parameters_monotone (z1 z2 : R) :
  z1 <= z2 ->
  (cp_stripe_s (adjust_color_parameters z1)
   <= cp_stripe_s (adjust_color_parameters z2))%Z /\
  (cp_ncycle (adjust_color_parameters z1)
   <= cp_ncycle (adjust_color_parameters z2))%Z /\
  (2 * cp_stripe_s (adjust_color_parameters z2)
   <= cp_ncycle (adjust_color_parameters z2))%Z.
Proof.
  intros H. unfold adjust_color_parameters.
  destruct (Rltb z1 10) eqn:A1; destruct (Rltb z1 100) eqn:A2;
    destruct (Rltb z1 1000) eqn:A3;
    destruct (Rltb z2 10) eqn:B1; destruct (Rltb z2 100) eqn:B2;
    destruct (Rltb z2 1000) eqn:B3;
    cbn [cp_stripe_s cp_ncycle]; repeat split; try lia;
    repeat match goal with
      | H : Rltb _ _ = true |- _ => apply Rltb_true in H
      | H : Rltb _ _ = false |- _ => apply Rltb_false in H
      end; lra.
Qed.

Lemma color_parameters_monotone_witness :
  (cp_stripe_s (adjust_color_parameters 4)
   <= cp_stripe_s (adjust_color_parameters 256))%Z /\
  (cp_ncycle (adjust_color_parameters 4)
   <= cp_ncycle (adjust_color_parameters 256))%Z /\
  (2 * cp_stripe_s (adjust_color_parameters 256)
   <= cp_ncycle (adjust_color_parameters 256))%Z.
Proof. apply (color_parameters_monotone 4 256). lra. Defined.

End ColorFacts.

Section PrecisionGrowth.

(** The floor of [log10 x] reaches [n] exactly when [x] reaches [10 ^ n]. *)
Lemma floor_log10_ge (n : nat) (x : R) :
  0 < x -> ((Z.of_nat n <= Zfloor (log10 x))%Z <-> 10 ^ n <= x).
Proof.
  intros Hx. split.
  - intros H. apply IZR_le in H. rewrite <- INR_IZR_INZ in H.
    pose proof (Zfloor_bound (log10 x)) as [Hb _].
    destruct (Rle_dec (10 ^ n) x) as [Hle | Hgt]; [easy |].
    assert (Hlt : log10 x < log10 (10 ^ n)) by (apply log10_lt; lra).
    rewrite log10_pow in Hlt. lra.
  - intros H. apply Zfloor_lub. rewrite <- INR_IZR_INZ, <- log10_pow.
    apply log10_le; [apply pow_lt; lra | easy].
Qed.

Lemma digits_needed_floor z :
  decimal_digits_needed (get_precision_at_zoom z)
  = (Zfloor (log10 (Rmax z 1)) + 2)%Z /\
  (0 <= Zfloor (log10 (Rmax z 1)))%Z.
Proof.
  assert (H0 : (0 <= Zfloor (log10 (Rmax z 1)))%Z).
  { apply (Zfloor_lub 0). apply log10_nonneg, Rmax_r. }
  split; [| easy].
  unfold get_precision_at_zoom. cbn [decimal_digits_needed].
  rewrite py_int_nonneg by (apply log10_nonneg, Rmax_r). lia.
Qed.

Lemma Rmax_1_ge (n : nat) z : (0 < n)%nat -> (10 ^ n <= Rmax z 1 <-> 10 ^ n <= z).
Proof.
  intros Hn.
  assert (H10 : 10 <= 10 ^ n).
  { destruct n as [| n]; [lia |]. cbn [pow].
    assert (1 <= 10 ^ n) by (apply pow_R1_Rle; lra). nra. }
  unfold Rmax. destruct (Rle_dec z 1); split; intros; lra.
Qed.

(** X2.  [get_precision_at_zoom]: a zoom level in [[10^n, 10^(n+1))]
    needs [n + 2] decimal digits (and never fewer than 2); the warning is
    raised exactly from zoom [10^11] on, and the percentage reaches 100
    exactly from zoom [10^13] on. *)
Theorem precision_thresholds (z : R) :
  (2 <= decimal_digits_needed (get_precision_at_zoom z))%Z /\
  (forall n : nat,
     10 ^ n <= Rmax z 1 < 10 ^ S n ->
     decimal_digits_needed (get_precision_at_zoom z) = (Z.of_nat n + 2)%Z) /\
  (precision_warning (get_precision_at_zoom z) = true <-> 10 ^ 11 <= z) /\
  (precision_percent (get_precision_at_zoom z) = 100 <-> 10 ^ 13 <= z).
Proof.
  destruct (digits_needed_floor z) as [Hd H0].
  assert (Hpos : 0 < Rmax z 1) by (pose proof (Rmax_r z 1); lra).
  split; [lia |]. split; [| split].
  - intros n [Hlo Hhi]. rewrite Hd.
    apply (floor_log10_ge n) in Hlo; [| easy].
    assert (Hn : ~ (Z.of_nat (S n) <= Zfloor (log10 (Rmax z 1)))%Z).
    { intros H. apply floor_log10_ge in H; [lra | easy]. }
    lia.
  - rewrite <- (Rmax_1_ge 11 z) by lia.
    rewrite <- (floor_log10_ge 11) by easy.
    unfold get_precision_at_zoom in *.
    cbn [decimal_digits_needed precision_warning] in *.
    rewrite Rltb_true, Hd. split; intros H.
    + assert (H' : IZR 12 < IZR (Zfloor (log10 (Rmax z 1)) + 2)) by lra.
      apply lt_IZR in H'. lia.
    + assert (H' : IZR 13 <= IZR (Zfloor (log10 (Rmax z 1)) + 2))
        by (apply IZR_le; lia).
      lra.
  - rewrite <- (Rmax_1_ge 13 z) by lia.
    rewrite <- (floor_log10_ge 13) by easy.
    unfold get_precision_at_zoom in *.
    cbn [decimal_digits_needed precision_percent] in *.
    rewrite Hd. unfold Rmin.
    destruct (Rle_dec 100 (IZR (Zfloor (log10 (Rmax z 1)) + 2) / IZR 15 * 100))
      as [Hle | Hgt]; split; intros H; try easy.
    + assert (H' : IZR 15 <= IZR (Zfloor (log10 (Rmax z 1)) + 2)) by lra.
      apply le_IZR in H'. lia.
    + assert (H' : IZR (Zfloor (log10 (Rmax z 1)) + 2) = IZR 15) by lra.
      apply eq_IZR in H'. lia.
    + exfalso. apply Hgt.
      assert (H' : IZR 15 <= IZR (Zfloor (log10 (Rmax z 1)) + 2))
        by (apply IZR_le; lia).
      lra.
Qed.

Lemma precision_thresholds_witness :
  decimal_digits_needed (get_precision_at_zoom 256) = (Z.of_nat 2 + 2)%Z.
Proof.
  apply (proj1 (proj2 (precision_thresholds 256)) 2%nat).
  unfold Rmax. destruct (Rle_dec 256 1); lra.
Defined.

End PrecisionGrowth.

Section EstimatorGrowth.

(** X3.  [estimate_required_iterations]: at zoom level [10^n - 1] (9, 99,
    999, ...) the estimate is exactly [(n + 1) * base], capped at 50000:
    every factor of ten in the zoom adds one base count.  And with a base
    between 0 and the cap, the estimate is never below the base. *)
Theorem estimate_growth (b : Z) :
  (forall n : nat,
     (0 < n)%nat ->
     estimate_required_iterations (10 ^ n - 1) b
     = Z.min (b * (Z.of_nat n + 1)) 50000) /\
  ((0 <= b <= 50000)%Z ->
   forall z, (b <= estimate_required_iterations z b)%Z).
Proof.
  split.
  - intros n Hn.
    assert (H10 : 10 <= 10 ^ n).
    { destruct n as [| n]; [lia |]. cbn [pow].
      assert (1 <= 10 ^ n) by (apply pow_R1_Rle; lra). nra. }
    rewrite estimate_zoomed by lra.
    replace (10 ^ n - 1 + 1) with (10 ^ n) by ring.
    rewrite log10_pow, INR_IZR_INZ.
    rewrite <- mult_IZR, <- plus_IZR, py_int_IZR.
    f_equal. ring.
  - intros Hb z. destruct (Rle_dec z 1) as [Hz | Hz].
    + rewrite estimate_at_home by easy. lia.
    + rewrite estimate_zoomed by lra. apply Z.min_glb; [| lia].
      assert (Hr : IZR b <= IZR b * log10 (z + 1) + IZR b)
        by (apply raw_estimate_ge_base; [lra | lia]).
      assert (Hb0 : 0 <= IZR b) by (apply IZR_le; lia).
      rewrite py_int_nonneg by lra. now apply Zfloor_lub.
Qed.

Lemma estimate_growth_witness :
  estimate_required_iterations (10 ^ 2 - 1) 500
  = Z.min (500 * (Z.of_nat 2 + 1)) 50000 /\
  (500 <= estimate_required_iterations 16 500)%Z.
Proof.
  split.
  - apply (proj1 (estimate_growth 500) 2%nat). lia.
  - apply (proj2 (estimate_growth 500)). lia.
Defined.

End EstimatorGrowth.

(** ** The aspect-ratio fit and the pixel conversion *)

Section FitFacts.

(** X4.  The aspect-ratio fit that [update_mandelbrot] applies before a
    render keeps the center and the x-range of the view, makes the
    y-range [x_range * height / width], and changes nothing when applied
    a second time. *)
Theorem fit_aspect_keeps_center_and_width (w h : Z) (c : Mandelbrot.coords) :
  let '(xmin, xmax, ymin, ymax) := c in
  let '(xmin', xmax', ymin', ymax') := Mandelbrot.fit_aspect w h c in
  xmin' = xmin /\ xmax' = xmax /\
  (ymin' + ymax') / 2 = (ymin + ymax) / 2 /\
  ymax' - ymin' = (xmax - xmin) * (IZR h / IZR w) /\
  Mandelbrot.fit_aspect w h (Mandelbrot.fit_aspect w h c)
  = Mandelbrot.fit_aspect w h c.
Proof.
  destruct c as [[[xmin xmax] ymin] ymax]. unfold Mandelbrot.fit_aspect.
  set (a := IZR h / IZR w).
  repeat split; try lra.
  f_equal; [f_equal; [f_equal |] |]; lra.
Qed.

End FitFacts.

Section CanvasFacts.

Lemma ratio_in_unit (p w : Z) :
  (0 <= p < w)%Z -> 0 <= IZR p / IZR w < 1.
Proof.
  intros [H0 Hw].
  assert (Hw' : 0 < IZR w) by (apply IZR_lt; lia).
  apply IZR_le in H0. apply IZR_lt in Hw.
  split.
  - apply Rmult_le_reg_r with (IZR w); [easy |].
    replace (IZR p / IZR w * IZR w) with (IZR p) by (field; lra). lra.
  - apply Rmult_lt_reg_r with (IZR w); [easy |].
    replace (IZR p / IZR w * IZR w) with (IZR p) by (field; lra). lra.
Qed.

(** X5.  [canvas_to_complex]: a click it accepts is a pixel of the
    picture and is converted to a point inside the bounds, never on the
    right or bottom edge of a proper rectangle; the top-left pixel is
    converted to [(xmin, ymax)]. *)
Theorem canvas_to_complex_in_bounds (s : Tk.gui) (img : image)
  (xmin xmax ymin ymax : R) :
  Tk.current_image s = Some img ->
  Mandelbrot.coord (Tk.mandelbrot s) = (xmin, xmax, ymin, ymax) ->
  (forall px py x y,
     Tk.canvas_to_complex s px py = Some (x, y) ->
     (0 <= px < width img)%Z /\ (0 <= py < height img)%Z /\
     (xmin <= xmax -> xmin <= x <= xmax) /\
     (ymin <= ymax -> ymin <= y <= ymax) /\
     (xmin < xmax -> x < xmax) /\
     (ymin < ymax -> ymin < y)) /\
  ((0 < width img)%Z -> (0 < height img)%Z ->
   Tk.canvas_to_complex s 0 0 = Some (xmin, ymax)).
Proof.
  intros Himg Hc. split.
  - intros px py x y. unfold Tk.canvas_to_complex. rewrite Himg, Hc.
    destruct ((px <? 0) || (width img <=? px) || (py <? 0)
              || (height img <=? py))%Z eqn:E; [easy |].
    rewrite !orb_false_iff, !Z.ltb_ge, !Z.leb_gt in E.
    destruct E as [[[E1 E2] E3] E4].
    intros [= <- <-].
    pose proof (ratio_in_unit px (width img) (conj E1 E2)) as [Hx0 Hx1].
    pose proof (ratio_in_unit py (height img) (conj E3 E4)) as [Hy0 Hy1].
    set (rx := IZR px / IZR (width img)) in *.
    set (ry := IZR py / IZR (height img)) in *.
    repeat split; try lia; intros; nra.
  - intros Hw Hh. unfold Tk.canvas_to_complex. rewrite Himg, Hc.
    replace ((0 <? 0) || (width img <=? 0) || (0 <? 0)
             || (height img <=? 0))%Z with false.
    + f_equal. f_equal; unfold Rdiv; ring.
    + symmetry. rewrite !orb_false_iff, !Z.ltb_ge, !Z.leb_gt. lia.
Qed.

Lemma canvas_to_complex_in_bounds_witness :
  Tk.canvas_to_complex
    (Tk.set_current_image (Some (render (Mandelbrot.initial 600 1))) tk_fresh)
    0 0
  = Some (-2.6, 1.25).
Proof.
  apply (proj2 (canvas_to_complex_in_bounds
                  (Tk.set_current_image
                     (Some (render (Mandelbrot.initial 600 1))) tk_fresh)
                  (render (Mandelbrot.initial 600 1))
                  (-2.6) 1.845 (-1.25) 1.25 eq_refl eq_refl));
    reflexivity.
Defined.

End CanvasFacts.

(** ** The whole Tk application *)

Section TkWholeFacts.



























End TkWholeFacts.

(** ** Reset and resize *)

Section ResetResizeFacts.


(** X10.  [reset_to_home] does nothing while a render is in flight.
    Otherwise it records the bounds it leaves as the newest history
    entry, restores [xmin] and [xmax] of the home view and its vertical
    center, gives the y-range the aspect ratio of the canvas (or the home
    y-range when the canvas is not larger than 50 by 50), sets the zoom
    level to 1 and [maxiter] to the base count, and requests a render
    without starting one. *)
Theorem reset_to_home_restores_home (x_min x_max y_min y_max : R)
  (s : Tk.gui) :
  let s' := TkMore.reset_to_home (x_min, x_max, y_min, y_max) s in
  (Tk.is_computing s = true -> s' = s) /\
  (Tk.is_computing s = false ->
   forall xmin' xmax' ymin' ymax',
     Mandelbrot.coord (Tk.mandelbrot s') = (xmin', xmax', ymin', ymax') ->
     xmin' = x_min /\ xmax' = x_max /\
     (ymin' + ymax') / 2 = (y_min + y_max) / 2 /\
     ((50 < Tk.winfo_width s)%Z -> (50 < Tk.winfo_height s)%Z ->
      ymax' - ymin'
      = (x_max - x_min)
        * (IZR (Tk.winfo_height s) / IZR (Tk.winfo_width s))) /\
     ((Tk.winfo_width s <= 50)%Z \/ (Tk.winfo_height s <= 50)%Z ->
      ymin' = y_min /\ ymax' = y_max) /\
     Tk.zoom_level s' = 1 /\
     Mandelbrot.maxiter (Tk.mandelbrot s') = Tk.base_iterations s /\
     (forall d, last (Tk.zoom_history s') d
                = Mandelbrot.coord (Tk.mandelbrot s)) /\
     Tk.update_pending s' = true /\
     Tk.dispatched s' = Tk.dispatched s).
Proof.
  intros s'. subst s'. unfold TkMore.reset_to_home. split.
  - intros Hc. now rewrite Hc.
  - intros Hc xmin' xmax' ymin' ymax'. rewrite Hc. cbn [negb].
    match goal with
    | |- context [Tk.schedule_update ?t] =>
        assert (Hp : Tk.update_pending (Tk.schedule_update t) = true)
          by (unfold Tk.schedule_update;
              destruct (Tk.update_pending t) eqn:E; [exact E | reflexivity]);
        destruct (schedule_update_view t) as [Sz Sm];
        assert (Sh : Tk.zoom_history (Tk.schedule_update t)
                     = Tk.zoom_history t)
          by (unfold Tk.schedule_update; now destruct (Tk.update_pending t));
        assert (Sd : Tk.dispatched (Tk.schedule_update t)
                     = Tk.dispatched t)
          by (unfold Tk.schedule_update; now destruct (Tk.update_pending t))
    end.
    rewrite Hp, Sz, Sm, Sh, Sd. clear Hp Sz Sm Sh Sd.
    cbn [Tk.winfo_width Tk.winfo_height Tk.save_current_view
         Tk.set_zoom_history].
    destruct (Z.ltb_spec 50 (Tk.winfo_width s)) as [Hw | Hw];
      destruct (Z.ltb_spec 50 (Tk.winfo_height s)) as [Hh | Hh];
      cbn [andb]; cbn; intros [= <- <- <- <-];
      (repeat split; try lra; try lia; try reflexivity;
       try (intros; lra); try (intros; lia);
       try (intros d; apply last_last)).
Qed.

Lemma reset_to_home_restores_home_witness :
  Tk.zoom_level
    (TkMore.reset_to_home (-2.6, 1.845, -1.25, 1.25)
       (Tk.set_zoom_level 16 tk_fresh)) = 1.
Proof.
  pose proof (proj2 (reset_to_home_restores_home (-2.6) 1.845 (-1.25) 1.25
                       (Tk.set_zoom_level 16 tk_fresh)) eq_refl) as H.
  cbv zeta in H.
  destruct (Mandelbrot.coord
              (Tk.mandelbrot
                 (TkMore.reset_to_home (-2.6, 1.845, -1.25, 1.25)
                    (Tk.set_zoom_level 16 tk_fresh))))
    as [[[a b] c] d] eqn:E.
  exact (proj1 (proj2 (proj2 (proj2 (proj2 (proj2 (H a b c d eq_refl))))))).
Defined.


End ResetResizeFacts.

Section ResizeScenario.




End ResizeScenario.

(** ** The Kivy front-end *)

Section KivyFacts.

Ltac run_kivy :=
  cbv -[IZR Rplus Rminus Rmult Rdiv Rinv Ropp Rle_dec Rlt_dec Zfloor Zceil
        ln].


(** X13.  In the Kivy front-end [is_computing] can stick.
    [display_result] returns before clearing the flag when
    [self.fractal_image] is not set; and once the flag is set with no
    worker running and no callback scheduled, every event leaves it set
    and starts no render. *)
Theorem kivy_flag_can_stick :
  (forall img s,
     Kivy.fractal_image s = None -> Kivy.display_result img s = s) /\
  (forall s e s',
     Kivy.is_computing s = true ->
     Kivy.threads s = [] ->
     Kivy.scheduled s = [] ->
     Kivy.exec e s = Some s' ->
     Kivy.is_computing s' = true /\
     Kivy.threads s' = [] /\
     Kivy.scheduled s' = [] /\
     Kivy.dispatched s' = Kivy.dispatched s /\
     Kivy.mandelbrot s' = Kivy.mandelbrot s).
Proof.
  split.
  - intros img s H. unfold Kivy.display_result. now rewrite H.
  - intros s e s' Hc Ht Hs.
    destruct e as [| pos zoom_out | | w | i raised | i]; cbn [Kivy.exec].
    + intros [= <-]. unfold Kivy.update_mandelbrot. now rewrite Hc.
    + unfold Kivy.zoom_at_point. rewrite Hc. cbn [orb]. now intros [= <-].
    + intros [= <-]. unfold Kivy.reset_to_home. now rewrite Hc.
    + intros [= <-]. cbn. easy.
    + rewrite Ht. now destruct i.
    + rewrite Hs. now destruct i.
Qed.

(** No image widget when the first render is displayed. *)
Lemma kivy_flag_can_stick_witness :
  exists s,
    Kivy.reachable (Kivy.init (Mandelbrot.initial 600 1)) s /\
    Kivy.is_computing s = true /\
    Kivy.threads s = [] /\
    Kivy.scheduled s = [] /\
    forall s',
      Kivy.exec Kivy.PreEnter s = Some s' ->
      Kivy.is_computing s' = true /\
      Kivy.threads s' = [] /\
      Kivy.scheduled s' = [] /\
      Kivy.dispatched s' = Kivy.dispatched s /\
      Kivy.mandelbrot s' = Kivy.mandelbrot s.
Proof.
  set (s0 := Kivy.init (Mandelbrot.initial 600 1)).
  set (s1 := Kivy.update_mandelbrot s0).
  set (s2 := Kivy.set_scheduled
               [Kivy.DisplayResult (render (Mandelbrot.initial 600 1))]
               (Kivy.set_threads [] s1)).
  set (s3 := Kivy.set_scheduled [] s2).
  exists s3.
  assert (R : Kivy.reachable s0 s3).
  { apply Kivy.reach_step with s2.
    - apply Kivy.reach_step with s1.
      + apply Kivy.reach_step with s0; [apply Kivy.reach_refl |].
        now exists Kivy.PreEnter.
      + exists (Kivy.ThreadDone 0 None). run_kivy. reflexivity.
    - exists (Kivy.ClockFires 0). run_kivy. reflexivity. }
  split; [exact R |].
  assert (Hc : Kivy.is_computing s3 = true) by reflexivity.
  assert (Ht : Kivy.threads s3 = []) by reflexivity.
  assert (Hs : Kivy.scheduled s3 = []) by reflexivity.
  repeat (split; [easy |]).
  intros s'.
  exact (proj2 kivy_flag_can_stick s3 Kivy.PreEnter s' Hc Ht Hs).
Defined.






End KivyFacts.

(** ** The zoom handlers of the Tk front-end *)

Section TkZoomFacts.




End TkZoomFacts.
